(** * The session broker of appium-desktop (src/appium.js)

    A shallow embedding of the main-process IPC handlers: the embedded
    server's lifecycle ([start-server], [stop-server]), the log batching
    timer, the registry of per-window wd drivers ([sessionDrivers]) and the
    command dispatcher.

    Every handler is an [async] function.  It is modelled as the state
    transformer of its synchronous prefix, which parks a continuation on the
    promise it awaits; the continuation runs in a later step, when the
    environment settles that promise.  Whatever other handlers did to the
    module's variables in between is seen by the continuation, as in the
    event loop. *)

From stdpp Require Import gmap strings list fin_maps.

Set Default Proof Using "Type".
Set Warnings "-clear-no-such-hyp".

(** ** Identities handed out by the runtime *)

Abbreviation requester := nat (only parsing).  (* sender.id *)
Abbreviation driver := nat (only parsing).     (* a wd.promiseChainRemote object *)
Abbreviation handle := nat (only parsing).     (* what appiumServer resolves to *)
Abbreviation timer := nat (only parsing).      (* what setInterval returns *)
Abbreviation loc := nat (only parsing).        (* an object of the heap *)
Abbreviation promise := nat (only parsing).

(** ** Values *)

Inductive value : Type :=
| VUndefined
| VNull
| VBool (b : bool)
| VNum (n : Z)
| VStr (s : string)
| VRef (l : loc)
| VLogHandler.   (* (level, msg) => { batchedLogs.push({level, msg}); } *)

Record js_error : Type := JsError { err_name : string; err_message : string }.

(** The error the runtime throws at [base.prop] when [base] is [undefined]
    or [null]. *)
Definition TypeError_read (prop base : string) : js_error :=
  JsError "TypeError" ("Cannot read property '" +:+ prop +:+ "' of " +:+ base).

Record LogRecord : Type := { level : string; msg : string }.

Record session_args : Type := {
  desiredCapabilities : value;
  host : value;
  port : value;
  username : value;
  accessKey : value;
  https : value
}.

(** What [driver[m]] is on a wd driver, as far as [driver[m].apply(...)]
    can tell: a function, nothing at all, [null], or a value that is not a
    function. *)
Inductive member : Type :=
| Method
| Missing
| NullMember
| NotCallable.

Inductive outcome : Type :=
| Resolve (v : value)
| Reject (e : js_error).

(** ** What the broker does to the outside *)

Inductive target : Type :=
| Win                      (* win.webContents *)
| Sender (r : requester).  (* event.sender *)

Inductive payload : Type :=
| NoPayload
| Message (m : string)
| LogBatch (l : list LogRecord)
| Response (source screenshot : value)
| ErrorPayload (e : js_error).

Inductive action : Type :=
| Send (to : target) (channel : string) (p : payload)
| PromiseChainRemote (d : driver) (hostname port username accessKey https : value)
| Call (d : driver) (method : string) (args : list value)
| AppiumServer (args : loc)
| Close (h : handle).

(** ** Suspended handlers *)

Inductive cont : Type :=
| K_killSession (sender : requester) (awaited : bool)
| K_start_appiumServer
| K_start_close (h : handle)
| K_stop_close (h : handle)
| K_create_init (sender : requester)
| K_command_method (sender : requester) (d : driver)
| K_command_source (sender : requester) (d : driver)
| K_command_screenshot (sender : requester) (d : driver) (source : value).

(** ** State: the module's variables and the runtime around them *)

Record state : Type := State {
  server : option handle;
  serverArgs : option loc;
  logWatcher : option timer;
  batchedLogs : list LogRecord;
  sessionDrivers : gmap requester driver;
  heap : gmap loc (gmap string value);
  timers : gset timer;       (* intervals set and not cleared *)
  running : gset handle;     (* servers brought up and not closed *)
  pending : gmap promise cont;
  next_id : nat;
  trace : list action        (* oldest first *)
}.

Definition initial : state :=
  State None None None [] ∅ ∅ ∅ ∅ ∅ 0 [].

Definition set_server (v : option handle) (st : state) : state :=
  State v (serverArgs st) (logWatcher st) (batchedLogs st) (sessionDrivers st)
        (heap st) (timers st) (running st) (pending st) (next_id st) (trace st).

Definition set_serverArgs (v : option loc) (st : state) : state :=
  State (server st) v (logWatcher st) (batchedLogs st) (sessionDrivers st)
        (heap st) (timers st) (running st) (pending st) (next_id st) (trace st).

Definition set_logWatcher (v : option timer) (st : state) : state :=
  State (server st) (serverArgs st) v (batchedLogs st) (sessionDrivers st)
        (heap st) (timers st) (running st) (pending st) (next_id st) (trace st).

Definition set_batchedLogs (v : list LogRecord) (st : state) : state :=
  State (server st) (serverArgs st) (logWatcher st) v (sessionDrivers st)
        (heap st) (timers st) (running st) (pending st) (next_id st) (trace st).

Definition set_sessionDrivers (v : gmap requester driver) (st : state) : state :=
  State (server st) (serverArgs st) (logWatcher st) (batchedLogs st) v
        (heap st) (timers st) (running st) (pending st) (next_id st) (trace st).

Definition set_heap (v : gmap loc (gmap string value)) (st : state) : state :=
  State (server st) (serverArgs st) (logWatcher st) (batchedLogs st) (sessionDrivers st)
        v (timers st) (running st) (pending st) (next_id st) (trace st).

Definition set_timers (v : gset timer) (st : state) : state :=
  State (server st) (serverArgs st) (logWatcher st) (batchedLogs st) (sessionDrivers st)
        (heap st) v (running st) (pending st) (next_id st) (trace st).

Definition set_running (v : gset handle) (st : state) : state :=
  State (server st) (serverArgs st) (logWatcher st) (batchedLogs st) (sessionDrivers st)
        (heap st) (timers st) v (pending st) (next_id st) (trace st).

Definition set_pending (v : gmap promise cont) (st : state) : state :=
  State (server st) (serverArgs st) (logWatcher st) (batchedLogs st) (sessionDrivers st)
        (heap st) (timers st) (running st) v (next_id st) (trace st).

Definition set_next_id (v : nat) (st : state) : state :=
  State (server st) (serverArgs st) (logWatcher st) (batchedLogs st) (sessionDrivers st)
        (heap st) (timers st) (running st) (pending st) v (trace st).

Definition set_trace (v : list action) (st : state) : state :=
  State (server st) (serverArgs st) (logWatcher st) (batchedLogs st) (sessionDrivers st)
        (heap st) (timers st) (running st) (pending st) (next_id st) v.

(** ** Runtime primitives *)

Definition emit (a : action) (st : state) : state :=
  set_trace (trace st ++ [a]) st.

Definition send (to : target) (channel : string) (p : payload) (st : state) : state :=
  emit (Send to channel p) st.

(** [await] on a promise of the environment: the rest of the handler is
    parked under a fresh promise. *)
Definition await (k : cont) (st : state) : state :=
  set_pending (<[next_id st := k]> (pending st)) (set_next_id (S (next_id st)) st).

Definition setInterval (st : state) : timer * state :=
  (next_id st, set_timers ({[next_id st]} ∪ timers st) (set_next_id (S (next_id st)) st)).

Definition clearInterval (t : option timer) (st : state) : state :=
  match t with
  | Some t => set_timers (timers st ∖ {[t]}) st
  | None => st
  end.

Definition truthy (v : value) : bool :=
  match v with
  | VUndefined | VNull => false
  | VBool b => b
  | VNum n => negb (n =? 0)%Z
  | VStr s => negb (bool_decide (s = ""))
  | VRef _ | VLogHandler => true
  end.

(** [Object.keys(v).length] for a [v] that passed the truthiness test. *)
Definition keys_length (h : gmap loc (gmap string value)) (v : value) : nat :=
  match v with
  | VRef l => match h !! l with Some o => size o | None => 0 end
  | VStr s => String.length s
  | _ => 0
  end.

Definition get_prop (h : gmap loc (gmap string value)) (l : loc) (p : string) : value :=
  match h !! l with
  | Some o => default VUndefined (o !! p)
  | None => VUndefined
  end.

Definition set_prop (l : loc) (p : string) (v : value) (st : state) : state :=
  set_heap (alter (insert p v) l (heap st)) st.

Definition delete_prop (l : loc) (p : string) (st : state) : state :=
  set_heap (alter (delete p) l (heap st)) st.

(** ** The handlers *)

Section Broker.

(** The command surface of a wd driver: [wd_method m] tells what
    [driver[m]] is.  [init], [quit], [source] and [takeScreenshot], which
    the source calls by name, are methods. *)
Variable wd_method : string → member.

(** [killSession(sender)] up to its [await]; [awaited] tells whether the
    caller awaits the returned promise inside its [try]
    (connectClientMethodListener) or drops it (connectCreateNewSession, the
    session window's 'closed' listener). *)
Definition killSession (sender : requester) (awaited : bool) (st : state) : state :=
  match sessionDrivers st !! sender with
  | Some d => await (K_killSession sender awaited) (emit (Call d "quit" []) st)
  | None => st
  end.

Definition killSession_resume (sender : requester) (awaited : bool)
    (o : outcome) (st : state) : state :=
  match o with
  | Resolve _ =>
      send (Sender sender) "appium-session-done" NoPayload
        (set_sessionDrivers (delete sender (sessionDrivers st)) st)
  | Reject e =>
      if awaited
      then send (Sender sender) "appium-client-command-response-error" (ErrorPayload e) st
      else st
  end.

(** The callback given to [setInterval]. *)
Definition flush (st : state) : state :=
  match batchedLogs st with
  | [] => st
  | _ :: _ =>
      set_batchedLogs [] (send Win "appium-log-line" (LogBatch (batchedLogs st)) st)
  end.

(** [args.logHandler], the closure [VLogHandler]. *)
Definition logHandler (lvl message : string) (st : state) : state :=
  set_batchedLogs (batchedLogs st ++ [{| level := lvl; msg := message |}]) st.

(** The listener of ipcMain.on('start-server'), up to
    [await appiumServer(serverArgs, true)].  The period of the timer,
    LOG_SEND_INTERVAL_MS, plays no part: a tick is a step of its own. *)
Definition normalize_args (args : loc) (st : state) : state :=
  let dc := get_prop (heap st) args "defaultCapabilities" in
  if truthy dc && bool_decide (keys_length (heap st) dc = 0)
  then delete_prop args "defaultCapabilities" st
  else st.

Definition connectStartServer (args : loc) (st : state) : state :=
  let st := normalize_args args st in
  let st := set_prop args "logHandler" VLogHandler st in
  let st := set_prop args "throwInsteadOfExit" (VBool true) st in
  let '(t, st) := setInterval st in
  let st := set_logWatcher (Some t) st in
  let st := set_serverArgs (Some args) st in
  await K_start_appiumServer (emit (AppiumServer args) st).

Definition connectStartServer_resume (o : outcome) (st : state) : state :=
  match o with
  | Resolve _ =>
      let h := next_id st in
      let st := set_running ({[h]} ∪ running st) (set_next_id (S h) st) in
      send Win "appium-start-ok" NoPayload (set_server (Some h) st)
  | Reject e =>
      let st := send Win "appium-start-error" (Message (err_message e)) st in
      match server st with
      | Some h => await (K_start_close h) (emit (Close h) st)
      | None => clearInterval (logWatcher st) st
      end
  end.

Definition closed (h : handle) (o : outcome) (st : state) : state :=
  match o with
  | Resolve _ => set_running (running st ∖ {[h]}) st
  | Reject _ => st
  end.

Definition connectStartServer_close_resume (h : handle) (o : outcome) (st : state) : state :=
  let st := closed h o st in
  clearInterval (logWatcher st) st.

(** ipcMain.on('stop-server'). *)
Definition connectStopServer (st : state) : state :=
  match server st with
  | Some h => await (K_stop_close h) (emit (Close h) st)
  | None =>
      let st := send Win "appium-stop-error"
                  (Message (err_message (TypeError_read "close" "null"))) st in
      clearInterval (logWatcher st) st
  end.

Definition connectStopServer_resume (h : handle) (o : outcome) (st : state) : state :=
  let st := closed h o st in
  let st := match o with
            | Resolve _ => send Win "appium-stop-ok" NoPayload st
            | Reject e => send Win "appium-stop-error" (Message (err_message e)) st
            end in
  clearInterval (logWatcher st) st.

(** ipcMain.on('appium-create-new-session'). *)
Definition connectCreateNewSession (sender : requester) (a : session_args) (st : state) : state :=
  let st := match sessionDrivers st !! sender with
            | Some _ => killSession sender false st
            | None => st
            end in
  let d := next_id st in
  let st := emit (PromiseChainRemote d (host a) (port a) (username a) (accessKey a) (https a))
              (set_next_id (S d) st) in
  let st := set_sessionDrivers (<[sender := d]> (sessionDrivers st)) st in
  let st := emit (Call d "init" [desiredCapabilities a]) st in
  let st := send (Sender sender) "appium-new-session-successful" NoPayload st in
  await (K_create_init sender) st.

Definition connectCreateNewSession_resume (sender : requester) (o : outcome) (st : state) : state :=
  match o with
  | Resolve _ => send (Sender sender) "appium-new-session-ready" NoPayload st
  | Reject _ =>
      let st := killSession sender false st in
      let st := send (Sender sender) "appium-new-session-failed" NoPayload st in
      send (Sender sender) "appium-session-done" NoPayload st
  end.

(** ipcMain.on('appium-client-command-request'). *)

(** What calling [driver[methodName].apply] throws when [driver[methodName]]
    is a value without a callable [apply]. *)
Definition not_a_function : js_error :=
  JsError "TypeError" "driver[methodName].apply is not a function".

Definition command_error (sender : requester) (e : js_error) (st : state) : state :=
  send (Sender sender) "appium-client-command-response-error" (ErrorPayload e) st.

Definition command_source (sender : requester) (drv : option driver) (st : state) : state :=
  match drv with
  | Some d => await (K_command_source sender d) (emit (Call d "source" []) st)
  | None => command_error sender (TypeError_read "source" "undefined") st
  end.

Definition connectClientMethodListener (sender : requester) (methodName : string)
    (args : list value) (st : state) : state :=
  let drv := sessionDrivers st !! sender in
  if bool_decide (methodName = "quit") then killSession sender true st
  else if negb (bool_decide (methodName = "source")) then
    match drv with
    | Some d =>
        match wd_method methodName with
        | Method => await (K_command_method sender d) (emit (Call d methodName args) st)
        | Missing => command_error sender (TypeError_read "apply" "undefined") st
        | NullMember => command_error sender (TypeError_read "apply" "null") st
        | NotCallable => command_error sender not_a_function st
        end
    | None => command_error sender (TypeError_read methodName "undefined") st
    end
  else command_source sender drv st.

Definition command_method_resume (sender : requester) (d : driver)
    (o : outcome) (st : state) : state :=
  match o with
  | Resolve _ => command_source sender (Some d) st
  | Reject e => command_error sender e st
  end.

Definition command_source_resume (sender : requester) (d : driver)
    (o : outcome) (st : state) : state :=
  match o with
  | Resolve source =>
      await (K_command_screenshot sender d source) (emit (Call d "takeScreenshot" []) st)
  | Reject e => command_error sender e st
  end.

Definition command_screenshot_resume (sender : requester) (source : value)
    (o : outcome) (st : state) : state :=
  match o with
  | Resolve screenshot =>
      send (Sender sender) "appium-client-command-response" (Response source screenshot) st
  | Reject e => command_error sender e st
  end.

(** ** The event loop *)

Definition resume (k : cont) (o : outcome) (st : state) : state :=
  match k with
  | K_killSession sender awaited => killSession_resume sender awaited o st
  | K_start_appiumServer => connectStartServer_resume o st
  | K_start_close h => connectStartServer_close_resume h o st
  | K_stop_close h => connectStopServer_resume h o st
  | K_create_init sender => connectCreateNewSession_resume sender o st
  | K_command_method sender d => command_method_resume sender d o st
  | K_command_source sender d => command_source_resume sender d o st
  | K_command_screenshot sender _ source => command_screenshot_resume sender source o st
  end.

(** What the event loop can run next: a message of a renderer, the
    'closed' event of a session window, the settling of an awaited promise,
    the tick of a timer, a log line of the server.  [WindowClosed] is the
    listener as it reads, [killSession(sessionWin.webContents)]: what
    Electron does with the webContents of a window that is gone is not
    modelled. *)
Inductive label : Type :=
| StartServer (args : loc)
| StopServer
| CreateNewSession (sender : requester) (a : session_args)
| ClientCommand (sender : requester) (methodName : string) (args : list value)
| WindowClosed (sender : requester)
| Settle (p : promise) (o : outcome)
| Tick (t : timer)
| Log (lvl message : string).

Definition logHandler_installed (st : state) : bool :=
  match serverArgs st with
  | Some l =>
      match get_prop (heap st) l "logHandler" with
      | VLogHandler => true
      | _ => false
      end
  | None => false
  end.

Definition step (st : state) (l : label) : state :=
  match l with
  | StartServer args => connectStartServer args st
  | StopServer => connectStopServer st
  | CreateNewSession sender a => connectCreateNewSession sender a st
  | ClientCommand sender m args => connectClientMethodListener sender m args st
  | WindowClosed sender => killSession sender false st
  | Settle p o =>
      match pending st !! p with
      | Some k => resume k o (set_pending (delete p (pending st)) st)
      | None => st
      end
  | Tick t => if bool_decide (t ∈ timers st) then flush st else st
  | Log lvl message => if logHandler_installed st then logHandler lvl message st else st
  end.

Definition run (st : state) (ls : list label) : state := foldl step st ls.

End Broker.

(** ** Observations on traces and runs *)

(** The batches delivered on 'appium-log-line', oldest first. *)
Definition log_batches (tr : list action) : list (list LogRecord) :=
  omap (λ a, match a with
             | Send Win ch (LogBatch l) =>
                 if bool_decide (ch = "appium-log-line") then Some l else None
             | _ => None
             end) tr.

(** The channels of the events sent to requester [r], oldest first. *)
Definition channels_to (r : requester) (tr : list action) : list string :=
  omap (λ a, match a with
             | Send (Sender r') ch _ => if bool_decide (r' = r) then Some ch else None
             | _ => None
             end) tr.

(** The method calls made on wd drivers, oldest first. *)
Definition calls (tr : list action) : list (driver * string) :=
  omap (λ a, match a with Call d m _ => Some (d, m) | _ => None end) tr.

(** The log pipeline as the text describes it: the records appended
    between two consecutive ticks form one group, [cur] being the group
    under construction; the batches are the groups that are not empty. *)
Fixpoint groups (cur : list LogRecord) (ls : list label) : list (list LogRecord) :=
  match ls with
  | [] => []
  | Log lvl message :: ls => groups (cur ++ [{| level := lvl; msg := message |}]) ls
  | Tick _ :: ls => cur :: groups [] ls
  | _ :: ls => groups cur ls
  end.

Definition spec_batches (cur : list LogRecord) (ls : list label) : list (list LogRecord) :=
  filter (λ b, b ≠ []) (groups cur ls).

(** What is appended after the last tick of [ls] stays in the buffer. *)
Fixpoint leftover (cur : list LogRecord) (ls : list label) : list LogRecord :=
  match ls with
  | [] => cur
  | Log lvl message :: ls => leftover (cur ++ [{| level := lvl; msg := message |}]) ls
  | Tick _ :: ls => leftover [] ls
  | _ :: ls => leftover cur ls
  end.

(** A run of the log pipeline alone: log lines of the server and ticks of
    timers that are set. *)
Definition log_label (st : state) (l : label) : Prop :=
  match l with
  | Log _ _ => True
  | Tick t => t ∈ timers st
  | _ => False
  end.



(** 'stop-server' followed to its end: when [server] holds a handle its
    [close] is awaited and settles with [o]. *)
Definition stop_events (st : state) (o : outcome) : list label :=
  match server st with
  | Some _ => [StopServer; Settle (next_id st) o]
  | None => [StopServer]
  end.

(** The error kind the text names for a command without a session. *)
Definition NoActiveSessionError (e : js_error) : Prop :=
  err_name e = "NoActiveSessionError".

(** The timer held by [logWatcher], as a set. *)
Definition watched (st : state) : gset timer :=
  match logWatcher st with
  | Some t => {[t]}
  | None => ∅
  end.

(** ** Concrete inputs *)

Definition all_methods : string → member := λ _, Method.

Definition caps : session_args :=
  {| desiredCapabilities := VRef 9; host := VStr "127.0.0.1"; port := VNum 4723;
     username := VUndefined; accessKey := VUndefined; https := VBool false |}.

Definition boom : js_error := JsError "Error" "ECONNREFUSED".

(** A fresh process whose renderer sent a config with an empty
    [defaultCapabilities]: object 0 is the config, object 1 the capabilities. *)
Definition booted : state :=
  set_next_id 2
    (set_heap {[ 0 := {[ "port" := VNum 4723; "defaultCapabilities" := VRef 1 ]};
                 1 := ∅ ]} initial).

(** Window 7 holds a session that is ready. *)
Definition in_session : state :=
  run all_methods initial [CreateNewSession 7 caps; Settle 1 (Resolve VUndefined)].

(** Window 7 asked for a session whose [init] is still awaited (promise 1),
    and the same once that [init] was rejected: the [quit] of the catch
    block is awaited under promise 2. *)
Definition creating : state :=
  run all_methods initial [CreateNewSession 7 caps].

Definition init_failed : state :=
  run all_methods creating [Settle 1 (Reject boom)].

(** 'start-server' arrived once (timer 2, bring-up awaited under promise 3),
    and twice in a row (timer 4, promise 5). *)
Definition starting : state :=
  run all_methods booted [StartServer 0].


(** A server that was started and stopped: [server] keeps the closed
    handle. *)
Definition stopped : state :=
  run all_methods starting
    [Settle 3 (Resolve VUndefined); StopServer; Settle 5 (Resolve VUndefined)].

Definition rec_a : LogRecord := {| level := "info"; msg := "a" |}.
Definition rec_b : LogRecord := {| level := "info"; msg := "b" |}.
Definition rec_c : LogRecord := {| level := "warn"; msg := "c" |}.

(** ** The synchronous listeners of connectGetDefaultArgs

    [getDefaultArgs()] and [getParser().rawArgs] belong to appium: the first
    is an object, the second an array of pairs [[flags, spec]] whose second
    component is an object with a [dest] property.  Both are taken as
    given. *)

Definition dest (spec : gmap string value) : value :=
  default VUndefined (spec !! "dest").

(** [defArgs.indexOf(x) !== -1]: [indexOf] compares with [===], and the
    keys of an object are strings. *)
Definition indexOf_found (defArgs : list string) (x : value) : bool :=
  match x with
  | VStr s => bool_decide (s ∈ defArgs)
  | _ => false
  end.

(** The listener of 'get-default-args'. *)
Definition get_default_args (getDefaultArgs : gmap string value) : gmap string value :=
  getDefaultArgs.

(** The listener of 'get-args-metadata'. *)
Definition get_args_metadata (getDefaultArgs : gmap string value)
    (rawArgs : list (list string * gmap string value)) : list (gmap string value) :=
  let defArgs := (map_to_list getDefaultArgs).*1 in
  (filter (λ a, indexOf_found defArgs (dest a.2)) rawArgs).*2.

(** ** Whom a step is about *)

Definition cont_requester (k : cont) : option requester :=
  match k with
  | K_killSession sender _ | K_create_init sender | K_command_method sender _
  | K_command_source sender _ | K_command_screenshot sender _ _ => Some sender
  | K_start_appiumServer | K_start_close _ | K_stop_close _ => None
  end.

(** The window a step works for: the sender of a message, the window that
    was closed, the sender whose handler is resumed; none for the server's
    lifecycle, the ticks and the log lines. *)
Definition subject (st : state) (l : label) : option requester :=
  match l with
  | CreateNewSession sender _ | ClientCommand sender _ _ | WindowClosed sender =>
      Some sender
  | Settle p _ => pending st !! p ≫= cont_requester
  | StartServer _ | StopServer | Tick _ | Log _ _ => None
  end.

(** The records the server's log handler took during a run. *)
Fixpoint appended (wd_method : string → member) (st : state) (ls : list label)
    : list LogRecord :=
  match ls with
  | [] => []
  | l :: ls =>
      match l with
      | Log lvl message =>
          if logHandler_installed st then [{| level := lvl; msg := message |}] else []
      | _ => []
      end ++ appended wd_method (step wd_method st l) ls
  end.

Definition is_StartServer (l : label) : bool :=
  match l with
  | StartServer _ => true
  | _ => false
  end.

(** The runtime hands out identities that are new: no timer that is set
    bears an identity not yet handed out. *)
Definition fresh_ids (st : state) : Prop :=
  ∀ t, t ∈ timers st → t < next_id st.

(** What one step does to the batches delivered so far and to the buffer. *)
Definition log_effect (st : state) (l : label)
    (delivered : list (list LogRecord)) : list (list LogRecord) * list LogRecord :=
  match l with
  | Tick t =>
      if bool_decide (t ∈ timers st)
      then match batchedLogs st with
           | [] => (delivered, [])
           | r :: rs => (delivered ++ [r :: rs], [])
           end
      else (delivered, batchedLogs st)
  | Log lvl message =>
      if logHandler_installed st
      then (delivered, batchedLogs st ++ [{| level := lvl; msg := message |}])
      else (delivered, batchedLogs st)
  | _ => (delivered, batchedLogs st)
  end.

(** More concrete inputs: the parser's table and the defaults of a small
    appium, and a server brought up in the fresh process. *)
Definition some_defaults : gmap string value :=
  {[ "port" := VNum 4723; "address" := VStr "0.0.0.0" ]}.

Definition some_rawArgs : list (list string * gmap string value) :=
  [ (["--shell"], {[ "dest" := VStr "shell" ]});
    (["-p"; "--port"], {[ "dest" := VStr "port"; "defaultValue" := VNum 4723 ]});
    (["--legacy"], {[ "help" := VStr "no dest" ]});
    (["-a"; "--address"], {[ "dest" := VStr "address" ]}) ].

Definition started : state :=
  run all_methods starting [Settle 3 (Resolve VUndefined)].

(** A driver that lacks "frobnicate" and whose "__proto__" is an object. *)
Definition wd_surface : string → member :=
  λ m, if bool_decide (m = "frobnicate") then Missing
       else if bool_decide (m = "__proto__") then NotCallable
       else Method.

(** The continuation parked by the last [await] is found under its promise. *)
Ltac parked := cbn; apply lookup_insert_eq.

(** Every listener but 'start-server', laid open down to the primitives. *)
Ltac open_handlers :=
  unfold connectStartServer_resume, connectStartServer_close_resume,
    connectStopServer, connectStopServer_resume, connectCreateNewSession,
    connectCreateNewSession_resume, connectClientMethodListener,
    command_method_resume, command_source_resume, command_screenshot_resume,
    command_source, command_error, killSession_resume, killSession, closed,
    flush, logHandler, send, emit, await, clearInterval in *.

(** * Properties *)

Section Properties.

Variable wd_method : string → member.

(** ** Projections of the primitives *)

Lemma trace_emit a st : trace (emit a st) = trace st ++ [a].
Proof. reflexivity. Qed.

Lemma trace_await k st : trace (await k st) = trace st.
Proof. reflexivity. Qed.

Lemma pending_await k st : pending (await k st) !! next_id st = Some k.
Proof. cbn. apply lookup_insert_eq. Qed.

Lemma trace_clearInterval t st : trace (clearInterval t st) = trace st.
Proof. by destruct t. Qed.

Lemma timers_clearInterval st :
  timers (clearInterval (logWatcher st) st) = timers st ∖ watched st.
Proof. unfold watched. destruct (logWatcher st); cbn; [done|]. by rewrite difference_empty_L. Qed.

Lemma log_batches_app tr1 tr2 :
  log_batches (tr1 ++ tr2) = log_batches tr1 ++ log_batches tr2.
Proof. apply omap_app. Qed.

Lemma run_cons st l ls :
  run wd_method st (l :: ls) = run wd_method (step wd_method st l) ls.
Proof. reflexivity. Qed.

Lemma run_app st ls1 ls2 :
  run wd_method st (ls1 ++ ls2) = run wd_method (run wd_method st ls1) ls2.
Proof. apply foldl_app. Qed.

(** ** The log pipeline *)

Lemma flush_empty st : batchedLogs st = [] → flush st = st.
Proof. unfold flush. by intros ->. Qed.

Lemma flush_nonempty st :
  batchedLogs st ≠ [] →
  batchedLogs (flush st) = [] ∧
  trace (flush st) = trace st ++ [Send Win "appium-log-line" (LogBatch (batchedLogs st))].
Proof. unfold flush. by destruct (batchedLogs st). Qed.

Lemma spec_batches_tick_nil t ls :
  spec_batches [] (Tick t :: ls) = spec_batches [] ls.
Proof. unfold spec_batches. cbn. by case_decide. Qed.

Lemma spec_batches_tick_cons r rs t ls :
  spec_batches (r :: rs) (Tick t :: ls) = (r :: rs) :: spec_batches [] ls.
Proof. unfold spec_batches. cbn. by case_decide. Qed.

Lemma log_step_frame st l :
  log_label st l → logHandler_installed st = true →
  timers (step wd_method st l) = timers st ∧
  logHandler_installed (step wd_method st l) = true.
Proof.
  destruct l; cbn; try done; intros Hl Hi.
  - case_bool_decide; [|done]. unfold flush. by destruct (batchedLogs st).
  - by rewrite Hi.
Qed.

Lemma log_run st ls :
  Forall (log_label st) ls → logHandler_installed st = true →
  log_batches (trace (run wd_method st ls)) =
    log_batches (trace st) ++ spec_batches (batchedLogs st) ls ∧
  batchedLogs (run wd_method st ls) = leftover (batchedLogs st) ls.
Proof.
  revert st. induction ls as [|l ls IH]; intros st Hls Hi.
  - cbn. by rewrite app_nil_r.
  - destruct (Forall_cons_1 _ _ _ Hls) as [Hl Hls0]. clear Hls. rename Hls0 into Hls.
    destruct (log_step_frame st l Hl Hi) as [Ht Hi'].
    assert (Forall (log_label (step wd_method st l)) ls) as Hls'.
    { eapply Forall_impl; [exact Hls|]. intros [] ; cbn; try done. by rewrite Ht. }
    specialize (IH _ Hls' Hi'). rewrite run_cons. destruct IH as [IH1 IH2].
    rewrite IH1, IH2. clear IH1 IH2 Hls Hls' Hi' Ht.
    destruct l; cbn in Hl; try done.
    + (* a tick *)
      cbn [step]. rewrite bool_decide_eq_true_2 by done.
      cbn [leftover].
      destruct (batchedLogs st) as [|r rs] eqn:E.
      * rewrite flush_empty by done. by rewrite E, spec_batches_tick_nil.
      * destruct (flush_nonempty st) as [Hb Htr]; [by rewrite E|].
        rewrite Hb, Htr, E, log_batches_app, spec_batches_tick_cons.
        cbn. by rewrite <- app_assoc.
    + (* a log line *)
      cbn [step]. rewrite Hi. done.
Qed.

(** C4: in a run of log lines and ticks, the batches delivered on
    'appium-log-line' are, in order, the non-empty groups of records
    appended between consecutive ticks; what was appended after the last
    tick is what the buffer holds; a tick on an empty buffer changes nothing
    and sends nothing; a tick on a non-empty buffer sends it whole, as one
    event, and leaves the buffer empty. *)
Theorem log_batches_are_groups st ls :
  Forall (log_label st) ls → logHandler_installed st = true →
  (log_batches (trace (run wd_method st ls)) =
     log_batches (trace st) ++ spec_batches (batchedLogs st) ls) ∧
  batchedLogs (run wd_method st ls) = leftover (batchedLogs st) ls ∧
  (∀ s t, t ∈ timers s → batchedLogs s = [] → step wd_method s (Tick t) = s) ∧
  (∀ s t, t ∈ timers s → batchedLogs s ≠ [] →
     batchedLogs (step wd_method s (Tick t)) = [] ∧
     trace (step wd_method s (Tick t)) =
       trace s ++ [Send Win "appium-log-line" (LogBatch (batchedLogs s))]).
Proof.
  intros Hls Hi. destruct (log_run st ls Hls Hi) as [H1 H2].
  split; [done|]. split; [done|]. split.
  - intros s t Ht Hb. cbn. rewrite bool_decide_eq_true_2 by done. by apply flush_empty.
  - intros s t Ht Hb. cbn. rewrite bool_decide_eq_true_2 by done. by apply flush_nonempty.
Qed.

(** ** Commands *)

Lemma step_settle st p k o :
  pending st !! p = Some k →
  step wd_method st (Settle p o) =
    resume k o (set_pending (delete p (pending st)) st).
Proof. cbn. by intros ->. Qed.

(** C7: for a requester with a session, the command "source" makes one
    [source] call on the driver, the refresh itself, then one
    [takeScreenshot] call, and answers with one
    'appium-client-command-response' carrying what the two calls resolved
    to; the registry is untouched. *)
Theorem source_command_single_call st r d args src shot :
  sessionDrivers st !! r = Some d →
  let n := next_id st in
  let st' := run wd_method st [ClientCommand r "source" args;
                               Settle n (Resolve src);
                               Settle (S n) (Resolve shot)] in
  trace (step wd_method st (ClientCommand r "source" args)) =
    trace st ++ [Call d "source" []] ∧
  trace st' = trace st ++ [Call d "source" []; Call d "takeScreenshot" [];
                           Send (Sender r) "appium-client-command-response"
                                (Response src shot)] ∧
  sessionDrivers st' = sessionDrivers st.
Proof.
  intros Hd n st'. subst st' n. unfold run. cbn [foldl].
  assert (step wd_method st (ClientCommand r "source" args) =
          await (K_command_source r d) (emit (Call d "source" []) st)) as ->.
  { cbn [step]. unfold connectClientMethodListener. rewrite Hd.
    rewrite bool_decide_eq_false_2 by done.
    rewrite bool_decide_eq_true_2 by done. done. }
  split; [done|].
  set (st1 := await _ _).
  rewrite (step_settle st1 (next_id st) (K_command_source r d)) by parked.
  cbn [resume command_source_resume].
  erewrite step_settle by parked.
  cbn [resume command_screenshot_resume].
  split; [|done]. cbn. by rewrite <- !app_assoc.
Qed.

(** C9, as the code has it: the command "quit" for a requester with a
    session calls the driver's [quit] and leaves the registry alone until
    that call settles; when it resolves the entry is removed and one
    'appium-session-done' is sent, and nothing else; when it is rejected the
    entry stays, no 'appium-session-done' is sent and the rejection goes out
    as one 'appium-client-command-response-error'.  For a requester without
    a session it changes nothing and sends nothing. *)
Theorem quit_command st r args :
  (∀ d v, sessionDrivers st !! r = Some d →
     let st1 := step wd_method st (ClientCommand r "quit" args) in
     let st2 := step wd_method st1 (Settle (next_id st) (Resolve v)) in
     trace st1 = trace st ++ [Call d "quit" []] ∧
     sessionDrivers st1 = sessionDrivers st ∧
     trace st2 = trace st ++ [Call d "quit" [];
                              Send (Sender r) "appium-session-done" NoPayload] ∧
     sessionDrivers st2 = delete r (sessionDrivers st) ∧
     pending st2 = delete (next_id st) (pending st)) ∧
  (sessionDrivers st !! r = None →
     step wd_method st (ClientCommand r "quit" args) = st) ∧
  (∀ d e, sessionDrivers st !! r = Some d →
     let st1 := step wd_method st (ClientCommand r "quit" args) in
     let st2 := step wd_method st1 (Settle (next_id st) (Reject e)) in
     trace st2 = trace st ++
       [Call d "quit" [];
        Send (Sender r) "appium-client-command-response-error" (ErrorPayload e)] ∧
     sessionDrivers st2 = sessionDrivers st ∧
     pending st2 = delete (next_id st) (pending st)).
Proof.
  assert (∀ d, sessionDrivers st !! r = Some d →
            step wd_method st (ClientCommand r "quit" args) =
            await (K_killSession r true) (emit (Call d "quit" []) st)) as Hquit.
  { intros d Hd. cbn [step]. unfold connectClientMethodListener, killSession.
    rewrite bool_decide_eq_true_2 by done. by rewrite Hd. }
  split; [|split].
  - intros d v Hd st1 st2. subst st2 st1. rewrite (Hquit d Hd).
    split; [done|]. split; [done|].
    erewrite step_settle by parked.
    cbn [resume killSession_resume].
    split; [cbn; by rewrite <- app_assoc|]. split; [done|].
    cbn. apply delete_insert_eq.
  - intros Hd. cbn [step]. unfold connectClientMethodListener, killSession.
    rewrite bool_decide_eq_true_2 by done. by rewrite Hd.
  - intros d e Hd st1 st2. subst st2 st1. rewrite (Hquit d Hd).
    erewrite step_settle by parked.
    cbn [resume killSession_resume].
    split; [cbn; by rewrite <- app_assoc|]. split; [done|].
    cbn. apply delete_insert_eq.
Qed.

(** C3, as the code has it: a command other than "quit" for a requester
    without a session sends one 'appium-client-command-response-error'
    carrying the TypeError the runtime throws when the handler reads the
    method on the missing driver; no method is called, nothing is awaited,
    and no variable of the broker changes. *)
Theorem command_without_session st r m args :
  sessionDrivers st !! r = None → m ≠ "quit" →
  step wd_method st (ClientCommand r m args) =
    send (Sender r) "appium-client-command-response-error"
         (ErrorPayload (JsError "TypeError"
            ("Cannot read property '" +:+ m +:+ "' of undefined"))) st ∧
  sessionDrivers (step wd_method st (ClientCommand r m args)) = sessionDrivers st ∧
  pending (step wd_method st (ClientCommand r m args)) = pending st ∧
  calls (trace (step wd_method st (ClientCommand r m args))) = calls (trace st).
Proof.
  intros Hd Hm.
  assert (step wd_method st (ClientCommand r m args) =
    send (Sender r) "appium-client-command-response-error"
         (ErrorPayload (JsError "TypeError"
            ("Cannot read property '" +:+ m +:+ "' of undefined"))) st) as ->.
  { cbn [step]. unfold connectClientMethodListener. rewrite Hd.
    rewrite bool_decide_eq_false_2 by done.
    case_bool_decide as Hs; cbn [negb]; [by subst m|done]. }
  split; [done|]. split; [done|]. split; [done|].
  unfold send, emit, calls. cbn. rewrite omap_app. cbn. by rewrite app_nil_r.
Qed.

(** ** The server's lifecycle *)

Lemma connectStartServer_unfold st args :
  connectStartServer args st =
    State (server st) (Some args) (Some (next_id st)) (batchedLogs st) (sessionDrivers st)
      (heap (set_prop args "throwInsteadOfExit" (VBool true)
               (set_prop args "logHandler" VLogHandler (normalize_args args st))))
      ({[next_id st]} ∪ timers st) (running st)
      (<[S (next_id st) := K_start_appiumServer]> (pending st))
      (S (S (next_id st))) (trace st ++ [AppiumServer args]).
Proof.
  unfold connectStartServer, setInterval, normalize_args.
  by destruct (truthy _ && bool_decide _).
Qed.

Lemma timers_stop_events st o :
  timers (run wd_method st (stop_events st o)) = timers st ∖ watched st.
Proof.
  unfold stop_events. destruct (server st) as [h|] eqn:Hs; unfold run; cbn [foldl].
  - assert (step wd_method st StopServer =
            await (K_stop_close h) (emit (Close h) st)) as ->.
    { cbn [step]. unfold connectStopServer. by rewrite Hs. }
    erewrite step_settle by parked.
    cbn [resume]. unfold connectStopServer_resume.
    rewrite timers_clearInterval. by destruct o.
  - cbn [step]. unfold connectStopServer. rewrite Hs.
    by rewrite timers_clearInterval.
Qed.

(** C6: 'stop-server' closes the handle held by [server]; when the close
    resolves 'appium-stop-ok' is sent, when it is rejected
    'appium-stop-error' is sent with the error's message, and when [server]
    holds no handle the close itself throws and 'appium-stop-error' carries
    that message; in every case the timer held by [logWatcher] is cleared,
    so that no timer is left when that one was the only one set.  The same
    holds when other listeners ran while the close was awaited: the resumed
    listener sends its event and clears the timer [logWatcher] holds
    then. *)
Theorem stop_server_teardown st :
  (server st = None →
     let st' := step wd_method st StopServer in
     trace st' = trace st ++
       [Send Win "appium-stop-error" (Message "Cannot read property 'close' of null")] ∧
     timers st' = timers st ∖ watched st) ∧
  (∀ h o, server st = Some h →
     let st' := run wd_method st [StopServer; Settle (next_id st) o] in
     trace st' = trace st ++
       [Close h;
        match o with
        | Resolve _ => Send Win "appium-stop-ok" NoPayload
        | Reject e => Send Win "appium-stop-error" (Message (err_message e))
        end] ∧
     timers st' = timers st ∖ watched st) ∧
  (∀ o, timers st ⊆ watched st →
     timers (run wd_method st (stop_events st o)) = ∅) ∧
  (∀ h o st2,
     trace (resume (K_stop_close h) o st2) = trace st2 ++
       [match o with
        | Resolve _ => Send Win "appium-stop-ok" NoPayload
        | Reject e => Send Win "appium-stop-error" (Message (err_message e))
        end] ∧
     timers (resume (K_stop_close h) o st2) = timers st2 ∖ watched st2).
Proof.
  split; [|split; [|split]].
  - intros Hs st'. subst st'. cbn [step]. unfold connectStopServer. rewrite Hs.
    split; [by rewrite trace_clearInterval|]. by rewrite timers_clearInterval.
  - intros h o Hs st'. subst st'. unfold run. cbn [foldl].
    assert (step wd_method st StopServer =
            await (K_stop_close h) (emit (Close h) st)) as ->.
    { cbn [step]. unfold connectStopServer. by rewrite Hs. }
    erewrite step_settle by parked.
    cbn [resume]. unfold connectStopServer_resume.
    rewrite trace_clearInterval, timers_clearInterval.
    destruct o; cbn; by rewrite <- app_assoc.
  - intros o Hsub. rewrite timers_stop_events. set_solver.
  - intros h o st2. cbn [resume]. unfold connectStopServer_resume.
    rewrite trace_clearInterval, timers_clearInterval. by destruct o.
Qed.


Lemma timers_resume k o st : timers (resume k o st) ⊆ timers st.
Proof.
  destruct k; cbn [resume].
  - unfold killSession_resume. by repeat case_match.
  - unfold connectStartServer_resume. destruct o; [done|]. case_match; [done|].
    rewrite timers_clearInterval. cbn. set_solver.
  - unfold connectStartServer_close_resume, closed. rewrite timers_clearInterval.
    destruct o; cbn; set_solver.
  - unfold connectStopServer_resume, closed. rewrite timers_clearInterval.
    destruct o; cbn; set_solver.
  - unfold connectCreateNewSession_resume, killSession. by repeat case_match.
  - by destruct o.
  - by destruct o.
  - by destruct o.
Qed.

Lemma timers_step st l :
  (∀ args, l ≠ StartServer args) → timers (step wd_method st l) ⊆ timers st.
Proof.
  intros Hl. destruct l; cbn [step].
  - by destruct (Hl args).
  - unfold connectStopServer. case_match; [done|]. rewrite timers_clearInterval. cbn. set_solver.
  - unfold connectCreateNewSession, killSession. by repeat case_match.
  - unfold connectClientMethodListener, killSession, command_source, command_error.
    by repeat case_match.
  - unfold killSession. by case_match.
  - case_match; [|done]. etrans; [apply timers_resume|done].
  - case_bool_decide; [|done]. unfold flush. by case_match.
  - by case_match.
Qed.





Lemma heap_normalize_args st args :
  heap (normalize_args args st) =
    if truthy (get_prop (heap st) args "defaultCapabilities") &&
       bool_decide (keys_length (heap st)
                      (get_prop (heap st) args "defaultCapabilities") = 0)
    then alter (delete "defaultCapabilities") args (heap st)
    else heap st.
Proof. unfold normalize_args. by destruct (truthy _ && bool_decide _). Qed.

(** C10: 'start-server' works on the object it was given, not on a copy:
    no object is allocated and no other object changes; in the given object
    [logHandler] and [throwInsteadOfExit] are set, [defaultCapabilities] is
    deleted when it refers to an object without keys and kept when that
    object has keys, every other key keeps its value; and [serverArgs] holds
    the reference it was given. *)
Theorem start_server_mutates_args st args o :
  heap st !! args = Some o →
  let st' := step wd_method st (StartServer args) in
  serverArgs st' = Some args ∧
  dom (heap st') = dom (heap st) ∧
  (∀ l, l ≠ args → heap st' !! l = heap st !! l) ∧
  ∃ o', heap st' !! args = Some o' ∧
    o' !! "logHandler" = Some VLogHandler ∧
    o' !! "throwInsteadOfExit" = Some (VBool true) ∧
    (∀ k, k ≠ "logHandler" → k ≠ "throwInsteadOfExit" → k ≠ "defaultCapabilities" →
       o' !! k = o !! k) ∧
    (∀ c, o !! "defaultCapabilities" = Some (VRef c) → heap st !! c = Some ∅ →
       o' !! "defaultCapabilities" = None) ∧
    (∀ c oc, o !! "defaultCapabilities" = Some (VRef c) → heap st !! c = Some oc →
       oc ≠ ∅ → o' !! "defaultCapabilities" = Some (VRef c)).
Proof.
  intros Ho st'. subst st'. cbn [step]. rewrite connectStartServer_unfold.
  cbn [serverArgs heap set_prop set_heap]. rewrite heap_normalize_args.
  set (cond := truthy _ && bool_decide _).
  assert (Hget : get_prop (heap st) args "defaultCapabilities" =
                 default VUndefined (o !! "defaultCapabilities")).
  { unfold get_prop. by rewrite Ho. }
  split; [done|]. split.
  { rewrite !dom_alter_L. destruct cond; [by rewrite dom_alter_L|done]. }
  split.
  { intros l Hl. rewrite !lookup_alter_ne by done.
    destruct cond; [by rewrite lookup_alter_ne|done]. }
  exists (<["throwInsteadOfExit" := VBool true]>
            (<["logHandler" := VLogHandler]>
               (if cond then delete "defaultCapabilities" o else o))).
  split.
  { rewrite !lookup_alter_eq. destruct cond; [rewrite lookup_alter_eq|]; by rewrite Ho. }
  split; [by rewrite lookup_insert_ne, lookup_insert_eq|].
  split; [by rewrite lookup_insert_eq|].
  split.
  { intros k H1 H2 H3. rewrite !lookup_insert_ne by done.
    destruct cond; [by rewrite lookup_delete_ne|done]. }
  split.
  - intros c Hc Hempty. rewrite !lookup_insert_ne by done.
    assert (cond = true) as ->; [|apply lookup_delete_eq].
    subst cond. rewrite Hget, Hc. cbn. by rewrite Hempty.
  - intros c oc Hc Hoc Hne. rewrite !lookup_insert_ne by done.
    assert (cond = false) as ->; [|done].
    subst cond. rewrite Hget, Hc. cbn. rewrite Hoc.
    apply bool_decide_eq_false_2. by apply map_size_non_empty_iff.
Qed.

(** ** Sessions *)

(** C1, what the code does: 'appium-create-new-session' for a requester
    that has a session calls [quit] on the old driver without waiting for
    it, and registers the new driver at once: no 'appium-session-done' has
    been sent and the key was never removed when the new driver is
    registered.  When the old driver's [quit] resolves, the suspended
    [killSession] deletes the key, which by then holds the new driver, and
    sends 'appium-session-done', while the new driver's [init] is still
    awaited. *)
Theorem create_over_session_drops_new_driver st r d a v :
  sessionDrivers st !! r = Some d →
  let n := next_id st in
  let st1 := step wd_method st (CreateNewSession r a) in
  let st2 := step wd_method st1 (Settle n (Resolve v)) in
  trace st1 = trace st ++
    [Call d "quit" [];
     PromiseChainRemote (S n) (host a) (port a) (username a) (accessKey a) (https a);
     Call (S n) "init" [desiredCapabilities a];
     Send (Sender r) "appium-new-session-successful" NoPayload] ∧
  sessionDrivers st1 = <[r := S n]> (sessionDrivers st) ∧
  pending st1 !! n = Some (K_killSession r false) ∧
  trace st2 = trace st1 ++ [Send (Sender r) "appium-session-done" NoPayload] ∧
  sessionDrivers st2 !! r = None ∧
  pending st2 !! S (S n) = Some (K_create_init r).
Proof.
  intros Hd n st1 st2.
  assert (st1 =
    await (K_create_init r)
      (send (Sender r) "appium-new-session-successful" NoPayload
         (emit (Call (S n) "init" [desiredCapabilities a])
            (set_sessionDrivers (<[r := S n]> (sessionDrivers st))
               (emit (PromiseChainRemote (S n) (host a) (port a) (username a)
                        (accessKey a) (https a))
                  (set_next_id (S (S n))
                     (await (K_killSession r false)
                        (emit (Call d "quit" []) st)))))))) as Hst1.
  { subst st1. cbn [step]. unfold connectCreateNewSession, killSession. by rewrite Hd. }
  assert (pending st1 !! n = Some (K_killSession r false)) as Hp.
  { rewrite Hst1. cbn. rewrite lookup_insert_ne by lia. apply lookup_insert_eq. }
  subst st2. rewrite (step_settle st1 n _ _ Hp). clear Hp.
  rewrite Hst1. cbn. rewrite <- !app_assoc.
  repeat (split; [done|]).
  split; [rewrite lookup_insert_ne by lia; apply lookup_insert_eq|].
  split; [done|]. split; [apply lookup_delete_eq|].
  rewrite lookup_delete_ne by lia. apply lookup_insert_eq.
Qed.

(** A [killSession] whose [quit] is rejected removes nothing; its caller
    hears of it only when it awaits the call. *)
Lemma killSession_rejected st r awaited e :
  sessionDrivers (killSession_resume r awaited (Reject e) st) = sessionDrivers st ∧
  trace (killSession_resume r awaited (Reject e) st) =
    trace st ++
      (if awaited
       then [Send (Sender r) "appium-client-command-response-error" (ErrorPayload e)]
       else []).
Proof. destruct awaited; cbn; [done|]. by rewrite app_nil_r. Qed.

(** C2, as the code has it: when the [init] of a registered driver is
    rejected, [quit] is called on the driver, then
    'appium-new-session-failed' and 'appium-session-done' are sent, in that
    order, with the driver still registered; when the [quit] resolves the
    entry is removed and 'appium-session-done' is sent once more.  When the
    requester has no entry left, only the two events are sent. *)
Theorem init_failure st r p e :
  pending st !! p = Some (K_create_init r) →
  let n := next_id st in
  let st1 := step wd_method st (Settle p (Reject e)) in
  (∀ d, sessionDrivers st !! r = Some d →
     trace st1 = trace st ++
       [Call d "quit" [];
        Send (Sender r) "appium-new-session-failed" NoPayload;
        Send (Sender r) "appium-session-done" NoPayload] ∧
     sessionDrivers st1 = sessionDrivers st ∧
     (∀ v, let st2 := step wd_method st1 (Settle n (Resolve v)) in
        trace st2 = trace st1 ++ [Send (Sender r) "appium-session-done" NoPayload] ∧
        sessionDrivers st2 = delete r (sessionDrivers st))) ∧
  (sessionDrivers st !! r = None →
     trace st1 = trace st ++
       [Send (Sender r) "appium-new-session-failed" NoPayload;
        Send (Sender r) "appium-session-done" NoPayload] ∧
     sessionDrivers st1 = sessionDrivers st ∧
     pending st1 = delete p (pending st)).
Proof.
  intros Hp n st1. subst st1. rewrite (step_settle _ _ _ _ Hp).
  cbn [resume]. unfold connectCreateNewSession_resume, killSession.
  cbn [sessionDrivers set_pending]. split.
  - intros d Hd. rewrite Hd. split; [cbn; by rewrite <- !app_assoc|].
    split; [done|].
    intros v. cbv zeta. erewrite step_settle by parked.
    by cbn.
  - intros Hd. rewrite Hd. split; [cbn; by rewrite <- !app_assoc|]. done.
Qed.

End Properties.

(** * The properties at concrete inputs *)

(** The example of the text: a, b, a tick, an empty tick, c, a tick. *)
Lemma log_batches_are_groups_witness :
  (Forall (log_label starting)
     [Log "info" "a"; Log "info" "b"; Tick 2; Tick 2; Log "warn" "c"; Tick 2] ∧
   logHandler_installed starting = true) ∧
  log_batches (trace (run all_methods starting
     [Log "info" "a"; Log "info" "b"; Tick 2; Tick 2; Log "warn" "c"; Tick 2])) =
    [[rec_a; rec_b]; [rec_c]].
Proof.
  assert (2 ∈ timers starting) as Ht.
  { apply (bool_decide_unpack _). vm_compute. exact I. }
  assert (Forall (log_label starting)
            [Log "info" "a"; Log "info" "b"; Tick 2; Tick 2; Log "warn" "c"; Tick 2]) as Hls.
  { repeat constructor; exact Ht. }
  split; [split; [exact Hls|reflexivity]|].
  exact (proj1 (log_batches_are_groups all_methods starting _ Hls eq_refl)).
Defined.

(** Window 7, whose session is ready, asks for "source". *)
Lemma source_command_single_call_witness :
  sessionDrivers in_session !! 7 = Some 0 ∧
  trace (run all_methods in_session
           [ClientCommand 7 "source" []; Settle 2 (Resolve (VStr "<hierarchy/>"));
            Settle 3 (Resolve (VStr "iVBORw0KGgo="))]) =
    trace in_session ++
      [Call 0 "source" []; Call 0 "takeScreenshot" [];
       Send (Sender 7) "appium-client-command-response"
            (Response (VStr "<hierarchy/>") (VStr "iVBORw0KGgo="))].
Proof.
  split; [reflexivity|].
  exact (proj1 (proj2 (source_command_single_call all_methods in_session 7 0 []
                         (VStr "<hierarchy/>") (VStr "iVBORw0KGgo=") eq_refl))).
Defined.

(** Window 7 quits its session; window 8 has none. *)
Lemma quit_command_witness :
  (sessionDrivers in_session !! 7 = Some 0 ∧
   sessionDrivers
     (step all_methods (step all_methods in_session (ClientCommand 7 "quit" []))
        (Settle 2 (Resolve VUndefined))) = delete 7 (sessionDrivers in_session)) ∧
  (sessionDrivers in_session !! 8 = None ∧
   step all_methods in_session (ClientCommand 8 "quit" []) = in_session) ∧
  sessionDrivers
    (step all_methods (step all_methods in_session (ClientCommand 7 "quit" []))
       (Settle 2 (Reject boom))) = sessionDrivers in_session.
Proof.
  split; [split; [reflexivity|]|split; [split; [reflexivity|]|]].
  - exact (proj1 (proj2 (proj2 (proj2
      (proj1 (quit_command all_methods in_session 7 []) 0 VUndefined eq_refl))))).
  - exact (proj1 (proj2 (quit_command all_methods in_session 8 [])) eq_refl).
  - exact (proj1 (proj2
      (proj2 (proj2 (quit_command all_methods in_session 7 [])) 0 boom eq_refl))).
Defined.

(** C9, the claim as it is written, fails: window 7 holds a session and
    asks for "quit", and the driver's [quit] is rejected; the entry is still
    there and what window 7 was sent is an error event, not
    'appium-session-done'. *)
Lemma quit_rejected_keeps_session :
  ¬ (sessionDrivers
       (run all_methods in_session [ClientCommand 7 "quit" []; Settle 2 (Reject boom)])
       !! 7 = None ∨
     channels_to 7
       (drop (length (trace in_session))
          (trace (run all_methods in_session
                    [ClientCommand 7 "quit" []; Settle 2 (Reject boom)]))) =
       ["appium-session-done"]).
Proof.
  intros [Hreg | Hev].
  - vm_compute in Hreg. discriminate Hreg.
  - vm_compute in Hev. discriminate Hev.
Qed.

(** C3, the claim as it is written, fails: window 3 has no session and
    asks for "click"; the one error event it gets carries the runtime's
    TypeError, not an error of the kind the text names. *)
Lemma command_without_session_sends_TypeError :
  ¬ ∃ e, trace (step all_methods initial (ClientCommand 3 "click" [])) =
           [Send (Sender 3) "appium-client-command-response-error" (ErrorPayload e)] ∧
         NoActiveSessionError e.
Proof.
  intros (e & He & Hn). vm_compute in He.
  injection He as <-. unfold NoActiveSessionError in Hn. discriminate Hn.
Qed.

(** Window 3 has no session and asks for "click". *)
Lemma command_without_session_witness :
  (sessionDrivers initial !! 3 = None ∧ "click" ≠ "quit") ∧
  trace (step all_methods initial (ClientCommand 3 "click" [])) =
    [Send (Sender 3) "appium-client-command-response-error"
       (ErrorPayload (JsError "TypeError" "Cannot read property 'click' of undefined"))].
Proof.
  assert ("click" ≠ "quit") as Hne by discriminate.
  split; [split; [reflexivity|exact Hne]|].
  exact (f_equal trace
           (proj1 (command_without_session all_methods initial 3 "click" [] eq_refl Hne))).
Defined.

(** A stop while the first bring-up is awaited, with timer 2 set and no
    handle yet, and stops of the running server, with timer 2 set, whose
    close resolves and whose close is rejected. *)
Lemma stop_server_teardown_witness :
  (server starting = None ∧ server started = Some 4 ∧
   timers started ⊆ watched started) ∧
  (size (timers starting) = 1 ∧
   timers (step all_methods starting StopServer) = timers starting ∖ watched starting) ∧
  (size (timers started) = 1 ∧
   trace (run all_methods started [StopServer; Settle 5 (Resolve VUndefined)]) =
     trace started ++ [Close 4; Send Win "appium-stop-ok" NoPayload] ∧
   trace (run all_methods started [StopServer; Settle 5 (Reject boom)]) =
     trace started ++ [Close 4; Send Win "appium-stop-error" (Message "ECONNREFUSED")]) ∧
  timers (run all_methods started (stop_events started (Resolve VUndefined))) = ∅ ∧
  timers (run all_methods started (stop_events started (Reject boom))) = ∅.
Proof.
  assert (timers started ⊆ watched started) as Hsub.
  { intros t Ht. exact Ht. }
  split; [split; [reflexivity|split; [reflexivity|exact Hsub]]|].
  split; [split; [by vm_compute|]|].
  2: split; [split; [by vm_compute|split]|split].
  - exact (proj2 (proj1 (stop_server_teardown all_methods starting) eq_refl)).
  - exact (proj1 (proj1 (proj2 (stop_server_teardown all_methods started))
                    4 (Resolve VUndefined) eq_refl)).
  - exact (proj1 (proj1 (proj2 (stop_server_teardown all_methods started))
                    4 (Reject boom) eq_refl)).
  - exact (proj1 (proj2 (proj2 (stop_server_teardown all_methods started)))
             (Resolve VUndefined) Hsub).
  - exact (proj1 (proj2 (proj2 (stop_server_teardown all_methods started)))
             (Reject boom) Hsub).
Defined.





(** The config of the fresh process is object 0. *)
Lemma start_server_mutates_args_witness :
  heap booted !! 0 = Some {[ "port" := VNum 4723; "defaultCapabilities" := VRef 1 ]} ∧
  serverArgs (step all_methods booted (StartServer 0)) = Some 0.
Proof.
  split; [reflexivity|].
  exact (proj1 (start_server_mutates_args all_methods booted 0 _ eq_refl)).
Defined.

(** Window 7 asks for a second session while it holds driver 0. *)
Lemma create_over_session_witness :
  sessionDrivers in_session !! 7 = Some 0 ∧
  sessionDrivers (step all_methods in_session (CreateNewSession 7 caps)) !! 7 = Some 3 ∧
  sessionDrivers
    (step all_methods (step all_methods in_session (CreateNewSession 7 caps))
       (Settle 2 (Resolve VUndefined))) !! 7 = None.
Proof.
  split; [reflexivity|]. split; [reflexivity|].
  exact (proj1 (proj2 (proj2 (proj2 (proj2
    (create_over_session_drops_new_driver all_methods in_session 7 0 caps VUndefined
       eq_refl)))))).
Defined.

(** C2, the claim as it is written, fails: after the rejected [init] of
    window 7's driver, whether the [quit] of the catch block is still
    awaited, resolves or is rejected, it is never the case that the entry is
    gone and that exactly 'appium-new-session-failed' and
    'appium-session-done' were sent. *)
Lemma init_failure_sends_session_done_twice :
  ¬ ∃ ls, (ls = [] ∨ ∃ o, ls = [Settle 2 o]) ∧
      sessionDrivers (run all_methods init_failed ls) !! 7 = None ∧
      channels_to 7 (drop (length (trace creating))
                       (trace (run all_methods init_failed ls))) =
        ["appium-new-session-failed"; "appium-session-done"].
Proof.
  intros (ls & [-> | [o ->]] & Hreg & Hev).
  - vm_compute in Hreg. discriminate Hreg.
  - destruct o as [v|e].
    + vm_compute in Hev. discriminate Hev.
    + vm_compute in Hreg. discriminate Hreg.
Qed.

(** The [init] of window 7's driver is rejected, its [quit] resolves. *)
Lemma init_failure_witness :
  pending creating !! 1 = Some (K_create_init 7) ∧
  sessionDrivers creating !! 7 = Some 0 ∧
  trace (step all_methods (step all_methods creating (Settle 1 (Reject boom)))
           (Settle 2 (Resolve VUndefined))) =
    trace (step all_methods creating (Settle 1 (Reject boom))) ++
      [Send (Sender 7) "appium-session-done" NoPayload].
Proof.
  split; [reflexivity|]. split; [reflexivity|].
  exact (proj1 (proj2 (proj2
    (proj1 (init_failure all_methods creating 7 1 boom eq_refl) 0 eq_refl))
    VUndefined)).
Defined.

(** * Further properties of the handlers *)

Section Interleavings.

Variable wd_method : string → member.

(** ** Commands on a session *)

Lemma command_dispatch st r d m args :
  sessionDrivers st !! r = Some d → m ≠ "quit" → m ≠ "source" → wd_method m = Method →
  step wd_method st (ClientCommand r m args) =
    await (K_command_method r d) (emit (Call d m args) st).
Proof.
  intros Hd Hq Hs Hm. cbn [step]. unfold connectClientMethodListener.
  rewrite Hd, Hm, !bool_decide_eq_false_2 by done. done.
Qed.

(** X1: a command other than "quit" and "source", for a requester with a
    session and a method the driver has, calls that method with the given
    arguments, then [source], then [takeScreenshot], each after the one
    before resolved, and answers with one response that carries the page
    source and the screenshot; what the method itself resolved to is not sent;
    the registry is untouched. *)
Theorem command_method_then_refresh st r d m args v src shot :
  sessionDrivers st !! r = Some d → m ≠ "quit" → m ≠ "source" → wd_method m = Method →
  let n := next_id st in
  let st' := run wd_method st [ClientCommand r m args; Settle n (Resolve v);
                               Settle (S n) (Resolve src);
                               Settle (S (S n)) (Resolve shot)] in
  trace st' = trace st ++
    [Call d m args; Call d "source" []; Call d "takeScreenshot" [];
     Send (Sender r) "appium-client-command-response" (Response src shot)] ∧
  sessionDrivers st' = sessionDrivers st.
Proof.
  intros Hd Hq Hs Hm n st'. subst st' n. unfold run. cbn [foldl].
  rewrite (command_dispatch st r d) by done.
  set (st1 := await _ _).
  rewrite (step_settle wd_method st1 (next_id st) (K_command_method r d)) by parked.
  cbn [resume command_method_resume command_source].
  set (st2 := await _ _).
  rewrite (step_settle wd_method st2 (S (next_id st)) (K_command_source r d)) by parked.
  cbn [resume command_source_resume].
  erewrite step_settle by parked.
  cbn [resume command_screenshot_resume].
  split; [|done]. cbn. by rewrite <- !app_assoc.
Qed.


(** X3: a command whose name is not a method of the driver makes no call
    at all, not even the refresh, and awaits nothing: the requester gets one
    error event with a TypeError, that of reading [apply] of [undefined] or
    of [null] when the driver has nothing or [null] under that name, and
    that of calling what is not a function otherwise. *)
Theorem command_unknown_method st r d m args :
  sessionDrivers st !! r = Some d → m ≠ "quit" → m ≠ "source" → wd_method m ≠ Method →
  let st' := step wd_method st (ClientCommand r m args) in
  (∃ e, st' = send (Sender r) "appium-client-command-response-error" (ErrorPayload e) st ∧
        err_name e = "TypeError" ∧
        err_message e =
          match wd_method m with
          | Missing => "Cannot read property 'apply' of undefined"
          | NullMember => "Cannot read property 'apply' of null"
          | _ => "driver[methodName].apply is not a function"
          end) ∧
  calls (trace st') = calls (trace st) ∧
  pending st' = pending st.
Proof.
  intros Hd Hq Hs Hm st'.
  assert (∃ e, st' = send (Sender r) "appium-client-command-response-error"
                       (ErrorPayload e) st ∧
               err_name e = "TypeError" ∧
               err_message e =
                 match wd_method m with
                 | Missing => "Cannot read property 'apply' of undefined"
                 | NullMember => "Cannot read property 'apply' of null"
                 | _ => "driver[methodName].apply is not a function"
                 end) as (e & He & Hn & Hmsg).
  { subst st'. cbn [step]. unfold connectClientMethodListener.
    rewrite Hd, !bool_decide_eq_false_2 by done. cbn [negb].
    destruct (wd_method m); [done| | |]; eexists; (split; [reflexivity|done]). }
  split; [by exists e|]. rewrite He. split; [|done].
  unfold send, emit, calls. cbn. rewrite omap_app. cbn. by rewrite app_nil_r.
Qed.

(** ** Sessions *)

(** X4: 'appium-create-new-session' for a requester without a session
    builds a driver from the host, port, user name, access key and https flag
    it was given, registers it under the requester at once, calls [init]
    with the desired capabilities and sends 'appium-new-session-successful'
    before [init] has settled; when [init] resolves,
    'appium-new-session-ready' follows and the driver stays registered. *)
Theorem create_session_fresh st r a :
  sessionDrivers st !! r = None →
  let n := next_id st in
  let st1 := step wd_method st (CreateNewSession r a) in
  trace st1 = trace st ++
    [PromiseChainRemote n (host a) (port a) (username a) (accessKey a) (https a);
     Call n "init" [desiredCapabilities a];
     Send (Sender r) "appium-new-session-successful" NoPayload] ∧
  sessionDrivers st1 = <[r := n]> (sessionDrivers st) ∧
  (∀ v, let st2 := step wd_method st1 (Settle (S n) (Resolve v)) in
     trace st2 = trace st1 ++ [Send (Sender r) "appium-new-session-ready" NoPayload] ∧
     sessionDrivers st2 = <[r := n]> (sessionDrivers st)).
Proof.
  intros Hd n st1.
  assert (st1 =
    await (K_create_init r)
      (send (Sender r) "appium-new-session-successful" NoPayload
         (emit (Call n "init" [desiredCapabilities a])
            (set_sessionDrivers (<[r := n]> (sessionDrivers st))
               (emit (PromiseChainRemote n (host a) (port a) (username a)
                        (accessKey a) (https a))
                  (set_next_id (S n) st)))))) as Hst1.
  { subst st1. cbn [step]. unfold connectCreateNewSession. by rewrite Hd. }
  rewrite Hst1. split; [cbn; by rewrite <- !app_assoc|]. split; [done|].
  intros v. cbv zeta. erewrite step_settle by parked. by cbn.
Qed.

(** X5: when a session window is closed, [killSession] runs with nobody
    awaiting it: with a session, [quit] is called and, once it resolves, the
    entry is removed and 'appium-session-done' is sent; if the [quit] is
    rejected nothing is sent and the entry stays registered; without a
    session nothing happens. *)
Theorem window_closed_kills_session st r :
  (∀ d, sessionDrivers st !! r = Some d →
     let st1 := step wd_method st (WindowClosed r) in
     trace st1 = trace st ++ [Call d "quit" []] ∧
     sessionDrivers st1 = sessionDrivers st ∧
     (∀ v, let st2 := step wd_method st1 (Settle (next_id st) (Resolve v)) in
        trace st2 = trace st1 ++ [Send (Sender r) "appium-session-done" NoPayload] ∧
        sessionDrivers st2 = delete r (sessionDrivers st)) ∧
     (∀ e, let st2 := step wd_method st1 (Settle (next_id st) (Reject e)) in
        trace st2 = trace st1 ∧ sessionDrivers st2 = sessionDrivers st)) ∧
  (sessionDrivers st !! r = None → step wd_method st (WindowClosed r) = st).
Proof.
  split.
  - intros d Hd st1. subst st1.
    assert (step wd_method st (WindowClosed r) =
            await (K_killSession r false) (emit (Call d "quit" []) st)) as ->.
    { cbn [step]. unfold killSession. by rewrite Hd. }
    split; [done|]. split; [done|]. split.
    + intros v. cbv zeta. erewrite step_settle by parked. by cbn.
    + intros e. cbv zeta. erewrite step_settle by parked. by cbn.
  - intros Hd. cbn [step]. unfold killSession. by rewrite Hd.
Qed.

(** ** Windows do not interfere *)

Lemma channels_to_app r tr1 tr2 :
  channels_to r (tr1 ++ tr2) = channels_to r tr1 ++ channels_to r tr2.
Proof. apply omap_app. Qed.

Lemma channels_to_other r s ch p :
  s ≠ r → channels_to r [Send (Sender s) ch p] = [].
Proof. intros Hne. cbn. by rewrite bool_decide_eq_false_2. Qed.

Ltac other_window :=
  cbn -[channels_to]; rewrite ?channels_to_app, ?channels_to_other by congruence;
  cbn; rewrite ?app_nil_r, ?lookup_insert_ne, ?lookup_delete_ne by congruence;
  try done.

(** X6: a step that works for one window, or for none, leaves the entry
    of every other window in the registry as it is and sends that window
    nothing; a step that works for no window (the server's lifecycle, a
    tick, a log line) leaves the whole registry as it is. *)
Theorem windows_isolated st l :
  (∀ r, subject st l ≠ Some r →
     sessionDrivers (step wd_method st l) !! r = sessionDrivers st !! r ∧
     channels_to r (trace (step wd_method st l)) = channels_to r (trace st)) ∧
  (subject st l = None → sessionDrivers (step wd_method st l) = sessionDrivers st).
Proof.
  assert (∀ r, subject st l ≠ Some r →
     sessionDrivers (step wd_method st l) !! r = sessionDrivers st !! r ∧
     channels_to r (trace (step wd_method st l)) = channels_to r (trace st)) as Hiso.
  { intros r Hr. destruct l; cbn [step subject] in *.
    - rewrite connectStartServer_unfold. by other_window.
    - open_handlers. repeat case_match; by other_window.
    - open_handlers. repeat case_match; by other_window.
    - open_handlers. repeat case_match; by other_window.
    - open_handlers. repeat case_match; by other_window.
    - destruct (pending st !! p) as [k|]; [|done].
      destruct k; cbn [mbind option_bind cont_requester resume] in *;
        open_handlers; repeat case_match; by other_window.
    - open_handlers. repeat case_match; by other_window.
    - open_handlers. repeat case_match; by other_window. }
  split; [done|]. intros Hnone. apply map_eq. intros r.
  apply Hiso. by rewrite Hnone.
Qed.

(** X7: a step that works for a window touches nothing of the server's
    side: [server], [serverArgs], [logWatcher], the log buffer, the timers,
    the running servers and the objects of the heap are what they were. *)
Theorem session_steps_leave_server_alone st l r :
  subject st l = Some r →
  let st' := step wd_method st l in
  server st' = server st ∧ serverArgs st' = serverArgs st ∧
  logWatcher st' = logWatcher st ∧ batchedLogs st' = batchedLogs st ∧
  timers st' = timers st ∧ running st' = running st ∧ heap st' = heap st.
Proof.
  intros Hr st'. subst st'. destruct l; cbn [step subject] in *; try done.
  - open_handlers. by repeat case_match.
  - open_handlers. by repeat case_match.
  - open_handlers. by repeat case_match.
  - destruct (pending st !! p) as [k|]; [|done].
    destruct k; cbn [mbind option_bind cont_requester resume] in *; try done;
      open_handlers; by repeat case_match.
Qed.

(** ** The log pipeline among the other listeners *)

Ltac no_batch :=
  cbn -[log_batches]; rewrite ?log_batches_app; cbn; rewrite ?app_nil_r; try done.

Lemma log_step st l :
  (log_batches (trace (step wd_method st l)), batchedLogs (step wd_method st l)) =
    log_effect st l (log_batches (trace st)).
Proof.
  destruct l; cbn [step log_effect].
  - rewrite connectStartServer_unfold. by no_batch.
  - open_handlers. repeat case_match; by no_batch.
  - open_handlers. repeat case_match; by no_batch.
  - open_handlers. repeat case_match; by no_batch.
  - open_handlers. repeat case_match; by no_batch.
  - destruct (pending st !! p) as [k|]; [|done].
    destruct k; cbn [resume]; open_handlers; repeat case_match; by no_batch.
  - case_bool_decide; [|done]. unfold flush.
    destruct (batchedLogs st) as [|r rs] eqn:E; [by rewrite E|].
    unfold send, emit. no_batch.
  - by case_match.
Qed.

Lemma log_step_batches st l :
  log_batches (trace (step wd_method st l)) =
    (log_effect st l (log_batches (trace st))).1.
Proof. by rewrite <- log_step. Qed.

Lemma log_step_buffer st l :
  batchedLogs (step wd_method st l) = (log_effect st l (log_batches (trace st))).2.
Proof. by rewrite <- log_step. Qed.

(** X8: whatever the listeners do in between, no log record is lost,
    repeated or reordered: at any time the batches delivered so far, laid end
    to end, followed by the buffer, are the records the log handler took, in
    the order it took them. *)
Theorem log_records_conserved st ls :
  concat (log_batches (trace (run wd_method st ls))) ++ batchedLogs (run wd_method st ls) =
    (concat (log_batches (trace st)) ++ batchedLogs st) ++ appended wd_method st ls.
Proof.
  revert st. induction ls as [|l ls IH]; intros st.
  - cbn. by rewrite app_nil_r.
  - rewrite run_cons, IH. cbn [appended]. rewrite app_assoc. f_equal.
    rewrite log_step_batches, log_step_buffer.
    destruct l; cbn [log_effect]; repeat case_match; cbn [fst snd];
      rewrite ?concat_app; cbn; rewrite ?app_nil_r, <- ?app_assoc; try done.
    all: by match goal with H : batchedLogs _ = _ |- _ => rewrite H end.
Qed.

(** X9: no run ever delivers an empty batch. *)
Theorem no_empty_batch st ls :
  Forall (λ b, b ≠ []) (log_batches (trace st)) →
  Forall (λ b, b ≠ []) (log_batches (trace (run wd_method st ls))).
Proof.
  revert st. induction ls as [|l ls IH]; intros st Hst; [done|].
  rewrite run_cons. apply IH. rewrite log_step_batches.
  destruct l; cbn [log_effect]; repeat case_match; cbn [fst]; try done.
  apply Forall_app. split; [done|]. by repeat constructor.
Qed.

(** X10: while no timer is set nothing is delivered: in a run without
    'start-server' that begins with no timer set, no timer gets set and no
    'appium-log-line' is sent, whatever is logged. *)
Theorem no_batch_without_timer st ls :
  timers st = ∅ → forallb (λ l, negb (is_StartServer l)) ls = true →
  timers (run wd_method st ls) = ∅ ∧
  log_batches (trace (run wd_method st ls)) = log_batches (trace st).
Proof.
  revert st. induction ls as [|l ls IH]; intros st Ht Hls; [done|].
  cbn [forallb] in Hls. apply andb_prop in Hls as [Hl Hls].
  rewrite run_cons.
  assert (timers (step wd_method st l) = ∅) as Ht'.
  { apply set_eq. intros t. split; [|set_solver]. intros Hin.
    rewrite <- Ht. eapply (timers_step wd_method st l); [|done].
    intros args ->. done. }
  destruct (IH _ Ht' Hls) as [IH1 IH2]. split; [done|].
  rewrite IH2, log_step_batches.
  destruct l; cbn [log_effect]; try done.
  - rewrite Ht. by rewrite bool_decide_eq_false_2 by set_solver.
  - by case_match.
Qed.

(** ** The server variable *)

Lemma server_step st l : is_Some (server st) → is_Some (server (step wd_method st l)).
Proof.
  intros Hs. destruct l; cbn [step].
  - by rewrite connectStartServer_unfold.
  - open_handlers. by repeat case_match.
  - open_handlers. by repeat case_match.
  - open_handlers. by repeat case_match.
  - open_handlers. by repeat case_match.
  - destruct (pending st !! p) as [k|]; [|done].
    destruct k; cbn [resume]; open_handlers; by repeat case_match.
  - open_handlers. by repeat case_match.
  - open_handlers. by repeat case_match.
Qed.

(** X11: [server] is never set back to [null]: once it holds a handle it
    holds one after any run, also after the server was stopped, so every
    later 'stop-server' calls [close] on a handle and awaits it, instead
    of failing on a missing one. *)
Theorem server_never_reset st ls :
  is_Some (server st) →
  ∃ h, server (run wd_method st ls) = Some h ∧
       trace (step wd_method (run wd_method st ls) StopServer) =
         trace (run wd_method st ls) ++ [Close h] ∧
       pending (step wd_method (run wd_method st ls) StopServer)
         !! next_id (run wd_method st ls) = Some (K_stop_close h).
Proof.
  intros Hs.
  assert (is_Some (server (run wd_method st ls))) as [h Hh].
  { revert st Hs. induction ls as [|l ls IH]; intros st Hs; [done|].
    rewrite run_cons. apply IH. by apply server_step. }
  exists h. split; [done|]. cbn [step]. unfold connectStopServer. rewrite Hh.
  split; [done|]. parked.
Qed.

(** ** Timers pile up *)

Lemma next_id_step st l : next_id st ≤ next_id (step wd_method st l).
Proof.
  destruct l; cbn [step].
  - rewrite connectStartServer_unfold. cbn. lia.
  - open_handlers. repeat case_match; cbn; lia.
  - open_handlers. repeat case_match; cbn; lia.
  - open_handlers. repeat case_match; cbn; lia.
  - open_handlers. repeat case_match; cbn; lia.
  - destruct (pending st !! p) as [k|]; [|done].
    destruct k; cbn [resume]; open_handlers; repeat case_match; cbn; lia.
  - open_handlers. repeat case_match; cbn; lia.
  - open_handlers. repeat case_match; cbn; lia.
Qed.

Lemma fresh_ids_step st l : fresh_ids st → fresh_ids (step wd_method st l).
Proof.
  intros Hf t Ht. pose proof (next_id_step st l) as Hn.
  destruct (decide (is_StartServer l = true)) as [Hl|Hl].
  - destruct l; try done. cbn [step] in *. rewrite connectStartServer_unfold in *.
    cbn in *. apply elem_of_union in Ht as [Ht|Ht].
    + apply elem_of_singleton in Ht. lia.
    + specialize (Hf t Ht). lia.
  - assert (t ∈ timers st) as Ht0.
    { eapply (timers_step wd_method st l); [|done]. intros args ->. by apply Hl. }
    specialize (Hf t Ht0). lia.
Qed.

Lemma fresh_ids_run st ls : fresh_ids st → fresh_ids (run wd_method st ls).
Proof.
  revert st. induction ls as [|l ls IH]; intros st Hf; [done|].
  rewrite run_cons. by apply IH, fresh_ids_step.
Qed.

(** X12: 'start-server' never clears a timer: [n] of them in a row leave
    [n] more timers set than before, of which [logWatcher] holds the
    last. *)
Theorem starts_pile_up_timers st args n :
  fresh_ids st →
  size (timers (run wd_method st (replicate n (StartServer args)))) =
    size (timers st) + n ∧
  (0 < n → ∃ t, logWatcher (run wd_method st (replicate n (StartServer args))) = Some t ∧
               t ∈ timers (run wd_method st (replicate n (StartServer args)))).
Proof.
  revert st. induction n as [|n IH]; intros st Hf.
  - split; [cbn; lia|lia].
  - cbn [replicate]. rewrite run_cons.
    destruct (IH (step wd_method st (StartServer args))) as [IH1 IH2];
      [by apply fresh_ids_step|].
    split.
    + rewrite IH1. cbn [step]. rewrite connectStartServer_unfold. cbn.
      rewrite size_union, size_singleton; [lia|].
      apply disjoint_singleton_l. intros Hin. specialize (Hf _ Hin). lia.
    + intros _. destruct n as [|n]; [|apply IH2; lia].
      cbn [replicate run foldl step]. rewrite connectStartServer_unfold. cbn.
      eexists. split; [done|]. set_solver.
Qed.

(** X13: a 'stop-server' that arrives while the first bring-up is still
    awaited finds no handle: it reports the TypeError and clears the timer
    the start has just set.  When the bring-up then resolves the server runs
    and 'appium-start-ok' is sent, but the timer is gone. *)
Theorem stop_during_start st args v :
  server st = None →
  let n := next_id st in
  let st' := run wd_method st [StartServer args; StopServer; Settle (S n) (Resolve v)] in
  trace st' = trace st ++
    [AppiumServer args;
     Send Win "appium-stop-error" (Message "Cannot read property 'close' of null");
     Send Win "appium-start-ok" NoPayload] ∧
  server st' = Some (S (S n)) ∧
  S (S n) ∈ running st' ∧
  logWatcher st' = Some n ∧
  (n ∉ timers st') ∧
  timers st' ⊆ timers st.
Proof.
  intros Hs n st'. subst st' n. unfold run. cbn [foldl].
  change (step wd_method st (StartServer args)) with (connectStartServer args st).
  rewrite connectStartServer_unfold.
  set (st1 := State _ _ _ _ _ _ _ _ _ _ _).
  assert (step wd_method st1 StopServer =
          clearInterval (logWatcher st1)
            (send Win "appium-stop-error"
               (Message "Cannot read property 'close' of null") st1)) as ->.
  { cbn [step]. unfold connectStopServer. subst st1. cbn [server]. by rewrite Hs. }
  erewrite step_settle by (subst st1; parked).
  subst st1. cbn -[union difference]. rewrite <- !app_assoc.
  repeat (split; [done|]). split; set_solver.
Qed.

(** X16: when the bring-up resolves, [server] holds the new handle,
    which runs, 'appium-start-ok' is sent, and the timer set before the
    bring-up is left running in [logWatcher]. *)
Theorem start_server_success st args v :
  let n := next_id st in
  let st' := run wd_method st [StartServer args; Settle (S n) (Resolve v)] in
  trace st' = trace st ++ [AppiumServer args; Send Win "appium-start-ok" NoPayload] ∧
  server st' = Some (S (S n)) ∧
  running st' = {[S (S n)]} ∪ running st ∧
  logWatcher st' = Some n ∧
  timers st' = {[n]} ∪ timers st ∧
  serverArgs st' = Some args.
Proof.
  intros n st'. subst st' n. unfold run. cbn [foldl].
  change (step wd_method st (StartServer args)) with (connectStartServer args st).
  rewrite connectStartServer_unfold.
  erewrite step_settle by parked.
  cbn -[union]. by rewrite <- !app_assoc.
Qed.

(** X17: a start that succeeds followed by a stop that succeeds sends
    'appium-start-ok' and 'appium-stop-ok', closes the handle the start
    brought up and clears the timer the start set: no timer is set and no
    server runs that was not before.  [server] keeps the closed handle. *)
Theorem start_then_stop st args v v' :
  let n := next_id st in
  let st' := run wd_method st [StartServer args; Settle (S n) (Resolve v);
                               StopServer; Settle (S (S (S n))) (Resolve v')] in
  trace st' = trace st ++
    [AppiumServer args; Send Win "appium-start-ok" NoPayload;
     Close (S (S n)); Send Win "appium-stop-ok" NoPayload] ∧
  server st' = Some (S (S n)) ∧
  (S (S n) ∉ running st') ∧ running st' ⊆ running st ∧
  (n ∉ timers st') ∧ timers st' ⊆ timers st.
Proof.
  intros n st'. subst st' n. unfold run. cbn [foldl].
  change (step wd_method st (StartServer args)) with (connectStartServer args st).
  rewrite connectStartServer_unfold.
  set (st1 := State _ _ _ _ _ _ _ _ _ _ _).
  rewrite (step_settle wd_method st1 (S (next_id st)) K_start_appiumServer)
    by (subst st1; parked).
  subst st1. cbn [resume connectStartServer_resume].
  set (st2 := send _ _ _ _).
  assert (step wd_method st2 StopServer =
          await (K_stop_close (S (S (next_id st)))) (emit (Close (S (S (next_id st)))) st2))
    as ->.
  { cbn [step]. unfold connectStopServer. by subst st2. }
  erewrite step_settle by (subst st2; parked).
  subst st2. cbn -[union difference]. rewrite <- !app_assoc.
  repeat (split; [done|]). repeat split; set_solver.
Qed.

(** X18: the log handler is installed and the timer set before the
    bring-up is awaited: a line the server logs while it comes up is
    delivered by the next tick of that timer, together with whatever the
    buffer still held, without waiting for the bring-up to settle. *)
Theorem startup_logs_delivered st args o lvl message :
  heap st !! args = Some o →
  let n := next_id st in
  let st' := run wd_method st [StartServer args; Log lvl message; Tick n] in
  trace st' = trace st ++
    [AppiumServer args;
     Send Win "appium-log-line"
       (LogBatch (batchedLogs st ++ [{| level := lvl; msg := message |}]))] ∧
  batchedLogs st' = [] ∧
  pending st' !! S n = Some K_start_appiumServer.
Proof.
  intros Ho n st'. subst st' n. unfold run. cbn [foldl].
  change (step wd_method st (StartServer args)) with (connectStartServer args st).
  rewrite connectStartServer_unfold.
  set (st1 := State _ _ _ _ _ _ _ _ _ _ _).
  assert (logHandler_installed st1 = true) as Hi.
  { subst st1. unfold logHandler_installed, get_prop. cbn.
    rewrite lookup_alter_eq, lookup_alter_eq, heap_normalize_args.
    destruct (truthy _ && bool_decide _); rewrite ?lookup_alter_eq, Ho; cbn;
      by rewrite lookup_insert_ne, lookup_insert_eq. }
  assert (step wd_method st1 (Log lvl message) = logHandler lvl message st1) as ->.
  { cbn [step]. by rewrite Hi. }
  cbn [step]. rewrite bool_decide_eq_true_2 by (subst st1; cbn; set_solver).
  unfold flush, logHandler. subst st1. cbn.
  destruct (batchedLogs st ++ _) eqn:E; [by destruct (batchedLogs st)|].
  cbn. rewrite <- !app_assoc. split; [done|]. split; [done|]. apply lookup_insert_eq.
Qed.

(** ** A session window closed while its session is being created *)

Ltac settle :=
  match goal with
  | |- context [step ?w ?s (Settle ?p ?o)] =>
      lazymatch s with
      | context [Settle _ _] => fail
      | _ =>
          erewrite (step_settle w s p) by
            (cbn;
             repeat first [rewrite lookup_delete_ne by lia
                          |rewrite lookup_insert_ne by lia];
             apply lookup_insert_eq)
      end
  end;
  cbn [resume];
  unfold connectCreateNewSession_resume, killSession_resume, killSession,
    send, emit, await;
  cbn -[step]; rewrite ?lookup_insert_eq, ?lookup_delete_eq; cbn -[step].

(** X14: when the window is closed right after it asked for a session,
    the entry registered for the pending [init] is found and its driver
    quit.  Whether [init] resolves or is rejected, and whether it settles
    before or after that [quit], once every [quit] has resolved the
    requester has no entry.  If [init] is rejected first, the catch block
    calls [quit] on the same driver a second time. *)
Theorem close_while_creating st r a oi v :
  sessionDrivers st !! r = None →
  let n := next_id st in
  let opened := [CreateNewSession r a; WindowClosed r] in
  let second_quit := match oi with
                     | Resolve _ => []
                     | Reject _ => [Settle (S (S (S n))) (Resolve v)]
                     end in
  sessionDrivers (run wd_method st opened) !! r = Some n ∧
  sessionDrivers
    (run wd_method st (opened ++ [Settle (S (S n)) (Resolve v); Settle (S n) oi]))
    !! r = None ∧
  sessionDrivers
    (run wd_method st
       (opened ++ [Settle (S n) oi; Settle (S (S n)) (Resolve v)] ++ second_quit))
    !! r = None ∧
  calls (trace (run wd_method st
                  (opened ++ [Settle (S n) oi; Settle (S (S n)) (Resolve v)] ++
                   second_quit))) =
    calls (trace st) ++ [(n, "init"); (n, "quit")] ++
      match oi with Resolve _ => [] | Reject _ => [(n, "quit")] end.
Proof.
  intros Hd n opened second_quit. subst opened second_quit.
  assert (step wd_method st (CreateNewSession r a) =
    await (K_create_init r)
      (send (Sender r) "appium-new-session-successful" NoPayload
         (emit (Call n "init" [desiredCapabilities a])
            (set_sessionDrivers (<[r := n]> (sessionDrivers st))
               (emit (PromiseChainRemote n (host a) (port a) (username a)
                        (accessKey a) (https a))
                  (set_next_id (S n) st)))))) as Hcreate.
  { cbn [step]. unfold connectCreateNewSession. by rewrite Hd. }
  assert (∀ st1, sessionDrivers st1 !! r = Some n →
            step wd_method st1 (WindowClosed r) =
            await (K_killSession r false) (emit (Call n "quit" []) st1)) as Hclose.
  { intros st1 H1. cbn [step]. unfold killSession. by rewrite H1. }
  subst n. split; [|split; [|split]].
  - unfold run. cbn [foldl]. rewrite Hcreate, Hclose by apply lookup_insert_eq. clear Hcreate Hclose.
    cbn. apply lookup_insert_eq.
  - unfold run. cbn [foldl app]. rewrite Hcreate, Hclose by apply lookup_insert_eq. clear Hcreate Hclose.
    settle. destruct oi; settle; by rewrite ?lookup_delete_eq.
  - destruct oi; unfold run; cbn [foldl app];
      rewrite Hcreate, Hclose by apply lookup_insert_eq; clear Hcreate Hclose;
      repeat settle; by rewrite ?lookup_delete_eq.
  - destruct oi; unfold run; cbn [foldl app];
      rewrite Hcreate, Hclose by apply lookup_insert_eq; clear Hcreate Hclose;
      repeat settle; unfold calls; cbn; rewrite !omap_app; cbn;
      by rewrite ?app_nil_r, <- ?app_assoc.
Qed.

(** ** The parser's table *)

Lemma indexOf_found_spec (defaults : gmap string value) (x : value) :
  indexOf_found (map_to_list defaults).*1 x = true ↔
  ∃ s, x = VStr s ∧ is_Some (defaults !! s).
Proof.
  unfold indexOf_found. destruct x as [| | | |s| |]; try (split; [done|by intros (? & ? & ?)]).
  rewrite bool_decide_eq_true. split.
  - intros Hin. apply list_elem_of_fmap in Hin as ([k x] & -> & Hin).
    apply elem_of_map_to_list in Hin. exists k. split; [done|]. by exists x.
  - intros (s' & [= <-] & [x Hx]). apply list_elem_of_fmap.
    exists (s, x). split; [done|]. by apply elem_of_map_to_list.
Qed.

(** X15: 'get-args-metadata' answers with the specs of the parser's
    table whose [dest] is a string that names a default argument, in the
    order of the table and as often as they occur there; a spec without
    [dest], or whose [dest] is no default, is left out; when every spec
    names a default the whole table is returned, and with no defaults
    nothing is. *)
Theorem args_metadata_filtered (defaults : gmap string value)
    (rawArgs : list (list string * gmap string value)) :
  (∀ spec, spec ∈ get_args_metadata defaults rawArgs ↔
     ∃ flags s, (flags, spec) ∈ rawArgs ∧ spec !! "dest" = Some (VStr s) ∧
                is_Some (defaults !! s)) ∧
  sublist (get_args_metadata defaults rawArgs) rawArgs.*2 ∧
  ((∀ a, a ∈ rawArgs → ∃ s, a.2 !! "dest" = Some (VStr s) ∧ is_Some (defaults !! s)) →
   get_args_metadata defaults rawArgs = rawArgs.*2) ∧
  get_args_metadata ∅ rawArgs = [].
Proof.
  assert (∀ (d : gmap string value) (a : list string * gmap string value),
            indexOf_found (map_to_list d).*1 (dest a.2) ↔
            ∃ s, a.2 !! "dest" = Some (VStr s) ∧ is_Some (d !! s)) as Hkeep.
  { intros d a. rewrite Is_true_true, indexOf_found_spec. unfold dest.
    split.
    - intros (s & Hs & Hk). exists s. split; [|done].
      destruct (a.2 !! "dest") as [x|]; cbn in Hs; by subst.
    - intros (s & -> & Hk). by exists s. }
  unfold get_args_metadata. split; [|split; [|split]].
  - intros spec. rewrite list_elem_of_fmap. split.
    + intros ([flags spec'] & -> & Hin). apply list_elem_of_filter in Hin as [Hk Hin].
      apply Hkeep in Hk as (s & Hs & Hk). by exists flags, s.
    + intros (flags & s & Hin & Hs & Hk). exists (flags, spec). split; [done|].
      apply list_elem_of_filter. split; [|done]. apply Hkeep. by exists s.
  - apply fmap_sublist, sublist_filter.
  - intros Hall. f_equal. induction rawArgs as [|a rawArgs IH]; [done|].
    rewrite filter_cons_True.
    + f_equal. apply IH. intros a' Ha'. apply Hall. by right.
    + apply Hkeep, Hall. by left.
  - induction rawArgs as [|a rawArgs IH]; [done|].
    rewrite filter_cons_False; [done|].
    intros Hk. apply Hkeep in Hk as (s & _ & Hk). rewrite lookup_empty in Hk.
    by destruct Hk.
Qed.

End Interleavings.

(** * The further properties at concrete inputs *)

(** Window 7, whose session is ready, asks for "click". *)
Lemma command_method_then_refresh_witness :
  (sessionDrivers in_session !! 7 = Some 0 ∧ "click" ≠ "quit" ∧ "click" ≠ "source" ∧
   all_methods "click" = Method) ∧
  trace (run all_methods in_session
           [ClientCommand 7 "click" [VStr "el-1"]; Settle 2 (Resolve VNull);
            Settle 3 (Resolve (VStr "<hierarchy/>"));
            Settle 4 (Resolve (VStr "iVBORw0KGgo="))]) =
    trace in_session ++
      [Call 0 "click" [VStr "el-1"]; Call 0 "source" []; Call 0 "takeScreenshot" [];
       Send (Sender 7) "appium-client-command-response"
            (Response (VStr "<hierarchy/>") (VStr "iVBORw0KGgo="))].
Proof.
  assert ("click" ≠ "quit") as Hq by discriminate.
  assert ("click" ≠ "source") as Hs by discriminate.
  split; [repeat split; done|].
  exact (proj1 (command_method_then_refresh all_methods in_session 7 0 "click"
                  [VStr "el-1"] VNull (VStr "<hierarchy/>") (VStr "iVBORw0KGgo=")
                  eq_refl Hq Hs eq_refl)).
Defined.


(** Window 7 asks for a name its driver lacks, and for "__proto__". *)
Lemma command_unknown_method_witness :
  (sessionDrivers in_session !! 7 = Some 0 ∧ "__proto__" ≠ "quit" ∧
   "__proto__" ≠ "source" ∧ wd_surface "__proto__" ≠ Method) ∧
  pending (step wd_surface in_session (ClientCommand 7 "frobnicate" [])) =
    pending in_session ∧
  trace (step wd_surface in_session (ClientCommand 7 "__proto__" [])) =
    trace in_session ++
      [Send (Sender 7) "appium-client-command-response-error"
         (ErrorPayload (JsError "TypeError" "driver[methodName].apply is not a function"))].
Proof.
  assert ("frobnicate" ≠ "quit") as Hq by discriminate.
  assert ("frobnicate" ≠ "source") as Hs by discriminate.
  assert (wd_surface "frobnicate" ≠ Method) as Hm by discriminate.
  assert ("__proto__" ≠ "quit") as Hq' by discriminate.
  assert ("__proto__" ≠ "source") as Hs' by discriminate.
  assert (wd_surface "__proto__" ≠ Method) as Hm' by discriminate.
  split; [repeat split; done|]. split.
  - exact (proj2 (proj2 (command_unknown_method wd_surface in_session 7 0 "frobnicate" []
                           eq_refl Hq Hs Hm))).
  - destruct (command_unknown_method wd_surface in_session 7 0 "__proto__" []
                eq_refl Hq' Hs' Hm') as ((e & He & Hn & Hmsg) & _).
    rewrite He. destruct e as [en em]. cbn in Hn, Hmsg. by subst.
Defined.

(** Window 7 of a fresh process asks for a session. *)
Lemma create_session_fresh_witness :
  sessionDrivers initial !! 7 = None ∧
  sessionDrivers (step all_methods initial (CreateNewSession 7 caps)) =
    <[7 := 0]> (sessionDrivers initial).
Proof.
  split; [reflexivity|].
  exact (proj1 (proj2 (create_session_fresh all_methods initial 7 caps eq_refl))).
Defined.

(** The window of session 7 is closed; window 8 never had a session. *)
Lemma window_closed_kills_session_witness :
  (sessionDrivers in_session !! 7 = Some 0 ∧
   trace (step all_methods in_session (WindowClosed 7)) =
     trace in_session ++ [Call 0 "quit" []]) ∧
  (sessionDrivers in_session !! 8 = None ∧
   step all_methods in_session (WindowClosed 8) = in_session).
Proof.
  split; (split; [reflexivity|]).
  - exact (proj1 (proj1 (window_closed_kills_session all_methods in_session 7) 0 eq_refl)).
  - exact (proj2 (window_closed_kills_session all_methods in_session 8) eq_refl).
Defined.

(** A command of window 8 leaves window 7 alone. *)
Lemma windows_isolated_witness :
  subject in_session (ClientCommand 8 "click" []) ≠ Some 7 ∧
  sessionDrivers (step all_methods in_session (ClientCommand 8 "click" [])) !! 7 =
    sessionDrivers in_session !! 7.
Proof.
  assert (subject in_session (ClientCommand 8 "click" []) ≠ Some 7) as Hne
    by discriminate.
  split; [exact Hne|].
  exact (proj1 (proj1 (windows_isolated all_methods in_session
                         (ClientCommand 8 "click" [])) 7 Hne)).
Defined.

(** A new session for window 8 while the server is up. *)
Lemma session_steps_leave_server_alone_witness :
  subject started (CreateNewSession 8 caps) = Some 8 ∧
  timers (step all_methods started (CreateNewSession 8 caps)) = timers started.
Proof.
  split; [reflexivity|].
  exact (proj1 (proj2 (proj2 (proj2 (proj2
    (session_steps_leave_server_alone all_methods started (CreateNewSession 8 caps) 8
       eq_refl)))))).
Defined.

(** Ticks on an empty buffer between log lines. *)
Lemma no_empty_batch_witness :
  Forall (λ b, b ≠ []) (log_batches (trace starting)) ∧
  Forall (λ b, b ≠ [])
    (log_batches (trace (run all_methods starting
       [Tick 2; Log "info" "a"; Tick 2; Tick 2; StopServer; Tick 2]))).
Proof.
  assert (Forall (λ b : list LogRecord, b ≠ []) (log_batches (trace starting))) as H0
    by constructor.
  split; [exact H0|].
  exact (no_empty_batch all_methods starting _ H0).
Defined.

(** After a stop, a late log line and a tick of the cleared timer. *)
Lemma no_batch_without_timer_witness :
  (timers stopped = ∅ ∧
   forallb (λ l, negb (is_StartServer l))
     [Log "info" "late"; Tick 2; StopServer] = true) ∧
  log_batches (trace (run all_methods stopped [Log "info" "late"; Tick 2; StopServer])) =
    log_batches (trace stopped).
Proof.
  split; [split; reflexivity|].
  exact (proj2 (no_batch_without_timer all_methods stopped
                  [Log "info" "late"; Tick 2; StopServer] eq_refl eq_refl)).
Defined.

(** A server that was started, then stopped. *)
Lemma server_never_reset_witness :
  is_Some (server started) ∧
  ∃ h, server (run all_methods started [StopServer; Settle 5 (Resolve VUndefined)]) =
         Some h.
Proof.
  assert (is_Some (server started)) as Hs by (by exists 4).
  split; [exact Hs|].
  destruct (server_never_reset all_methods started
              [StopServer; Settle 5 (Resolve VUndefined)] Hs) as (h & Hh & _).
  exists h. exact Hh.
Defined.

(** Three 'start-server' in a row in the fresh process. *)
Lemma starts_pile_up_timers_witness :
  fresh_ids booted ∧
  size (timers (run all_methods booted (replicate 3 (StartServer 0)))) =
    size (timers booted) + 3.
Proof.
  assert (fresh_ids booted) as Hf.
  { intros t Ht. apply elem_of_empty in Ht. destruct Ht. }
  split; [exact Hf|].
  exact (proj1 (starts_pile_up_timers all_methods booted 0 3 Hf)).
Defined.

(** The fresh process: start, stop before the server is up, server up. *)
Lemma stop_during_start_witness :
  server booted = None ∧
  server (run all_methods booted
            [StartServer 0; StopServer; Settle 3 (Resolve VUndefined)]) = Some 4 ∧
  timers (run all_methods booted
            [StartServer 0; StopServer; Settle 3 (Resolve VUndefined)]) ⊆ timers booted.
Proof.
  split; [reflexivity|].
  pose proof (stop_during_start all_methods booted 0 VUndefined eq_refl)
    as (_ & Hs & _ & _ & _ & Ht).
  split; [exact Hs|exact Ht].
Defined.

(** Window 7 asks for a session and is closed before [init] is rejected. *)
Lemma close_while_creating_witness :
  sessionDrivers initial !! 7 = None ∧
  sessionDrivers
    (run all_methods initial
       ([CreateNewSession 7 caps; WindowClosed 7] ++
        [Settle 1 (Reject boom); Settle 2 (Resolve VUndefined)] ++
        [Settle 3 (Resolve VUndefined)])) !! 7 = None.
Proof.
  split; [reflexivity|].
  exact (proj1 (proj2 (proj2
    (close_while_creating all_methods initial 7 caps (Reject boom) VUndefined eq_refl)))).
Defined.

(** A table in which every spec names a default, and the small appium. *)
Lemma args_metadata_filtered_witness :
  (∀ a, a ∈ [(["-p"; "--port"], ({[ "dest" := VStr "port" ]} : gmap string value))] →
        ∃ s, a.2 !! "dest" = Some (VStr s) ∧ is_Some (some_defaults !! s)) ∧
  get_args_metadata some_defaults
    [(["-p"; "--port"], {[ "dest" := VStr "port" ]})] =
    [{[ "dest" := VStr "port" ]}] ∧
  sublist (get_args_metadata some_defaults some_rawArgs) some_rawArgs.*2.
Proof.
  assert (∀ a, a ∈ [(["-p"; "--port"], ({[ "dest" := VStr "port" ]} : gmap string value))] →
               ∃ s, a.2 !! "dest" = Some (VStr s) ∧ is_Some (some_defaults !! s)) as Hall.
  { intros a Ha. apply list_elem_of_singleton in Ha as ->.
    exists "port". split; [reflexivity|]. by exists (VNum 4723). }
  split; [exact Hall|]. split.
  - exact (proj1 (proj2 (proj2 (args_metadata_filtered some_defaults _))) Hall).
  - exact (proj1 (proj2 (args_metadata_filtered some_defaults some_rawArgs))).
Defined.

(** The first start of the fresh process succeeds. *)
Lemma start_then_stop_witness :
  timers (run all_methods booted
            [StartServer 0; Settle 3 (Resolve VUndefined);
             StopServer; Settle 5 (Resolve VUndefined)]) ⊆ timers booted.
Proof.
  exact (proj2 (proj2 (proj2 (proj2 (proj2
    (start_then_stop all_methods booted 0 VUndefined VUndefined)))))).
Defined.

(** A line logged while the first server comes up. *)
Lemma startup_logs_delivered_witness :
  heap booted !! 0 = Some {[ "port" := VNum 4723; "defaultCapabilities" := VRef 1 ]} ∧
  batchedLogs (run all_methods booted [StartServer 0; Log "info" "Welcome"; Tick 2]) = [].
Proof.
  split; [reflexivity|].
  exact (proj1 (proj2 (startup_logs_delivered all_methods booted 0 _ "info" "Welcome"
                         eq_refl))).
Defined.
